(** * MaidSafe NFS: the delete-response classifier and the client facade

    A shallow embedding of

    - [HandleDeleteResponse] of [include/maidsafe/nfs/utils.h], and
    - [MaidNodeNfs] and the free function [CreateAccount] of
      [src/maidsafe/nfs/client/maid_node_nfs.cc] (both revisions),

    together with the properties the specification states about them.

    C++ statements are written in a state-and-exception monad: a
    computation takes the state it runs in and gives back the state it
    leaves, with either a value or the exception it threw. *)

From stdpp Require Import base decidable option numbers list strings gmap functions.

Open Scope Z_scope.

(** ** Computations that may throw *)

Inductive completion (E A : Type) : Type :=
| Normal (a : A)
| Thrown (e : E).
Arguments Normal {E A} a.
Arguments Thrown {E A} e.

Definition M (S E A : Type) : Type := S → completion E A * S.

#[global] Instance M_ret {S E} : MRet (M S E) :=
  λ A a s, (Normal a, s).

#[global] Instance M_bind {S E} : MBind (M S E) :=
  λ A B k m s,
    match m s with
    | (Normal a, s') => k a s'
    | (Thrown e, s') => (Thrown e, s')
    end.

Definition throw {S E A} (e : E) : M S E A := λ s, (Thrown e, s).
Definition gets {S E A} (f : S → A) : M S E A := λ s, (Normal (f s), s).
Definition modify {S E} (f : S → S) : M S E () := λ s, (Normal (), f s).

(** [try { body } catch (E& e) { handler }]: the handler runs in the state
    the body had reached when it threw. *)
Definition try_catch {S E A} (body : M S E A) (handler : E → M S E A) : M S E A :=
  λ s,
    match body s with
    | (Thrown e, s') => handler e s'
    | r => r
    end.

(** [for (auto& x : xs) body(x)] *)
Fixpoint for_each {S E A} (xs : list A) (body : A → M S E ()) : M S E () :=
  match xs with
  | [] => mret ()
  | x :: xs' => body x ;; for_each xs' body
  end.


(** ** [maidsafe::nfs]: utils.h *)

Module nfs.

(** What [catch (const std::exception& e)] receives; only [e.what()] is
    used. *)
Record std_exception := { what : string }.

Section HandleDeleteResponse.

(** [DataMessage] comes from data_message.h.  [moved_from m] is the value
    a [DataMessage] variable is left with after [std::move(m)] has been
    passed to the functor (the identity when the functor takes a
    reference). *)
Variable DataMessage : Type.
Variable moved_from : DataMessage → DataMessage.

(** [on_error_functor] is the caller's [DataMessage::OnError], a
    [std::function].  What a call of it ends with is the caller's matter:
    it returns, or it throws (an empty [std::function] throws
    [std::bad_function_call]).  The outcome may depend on the argument and
    on how many times the functor has been called before in this
    activation. *)
Variable functor_outcome : nat → DataMessage → completion std_exception ().

(** [ReturnCode return_code((ReturnCode::serialised_type(
    NonEmptyString(serialised_message))))] followed by
    [return_code.value()]: return_code.h is not part of these sources, so
    the constructor chain is a parameter.  It yields the decoded value or
    throws. *)
Variable ReturnCode : string → completion std_exception Z.

(** The integer value of [CommonErrors::success] (error.h). *)
Variable success : Z.

(** Everything the function does to its surroundings: log lines and calls
    of the functor, oldest first. *)
Inductive effect :=
| LOG_kError_no_responses (original_data_message : DataMessage)
| LOG_kWarning_received_error (value : Z) (original_data_message : DataMessage)
| LOG_kError_what (e_what : string)
| LOG_kError_no_successful_responses
    (original_data_message : DataMessage) (failure_count : Z)
| LOG_kVerbose_overall_success
    (original_data_message : DataMessage) (success_count failure_count : Z)
| on_error_functor_call (argument : DataMessage).

(** The locals of one activation.  [success_count] and [failure_count] are
    C++ [int]s; they are incremented once per message at most, so they stay
    below 2^31 for every vector of fewer than 2^31 messages (see
    [counts_le_length]) and are modelled in [Z]. *)
Record frame := {
  original_data_message : DataMessage;
  success_count : Z;
  failure_count : Z;
  effects : list effect
}.

Definition emit (e : effect) : M frame std_exception () :=
  modify (λ f, {| original_data_message := original_data_message f;
                  success_count := success_count f;
                  failure_count := failure_count f;
                  effects := effects f ++ [e] |}).

(** Observations on the effects. *)
Definition is_on_error_call (e : effect) : bool :=
  match e with on_error_functor_call _ => true | _ => false end.

Definition on_error_invocations (es : list effect) : nat :=
  length (filter (λ e, is_on_error_call e = true) es).

(** [on_error_functor(std::move(original_data_message))], lines 73 and
    102: the call is recorded with its argument, the local message is left
    moved-from, and the functor runs.  Both calls stand outside the [try]
    block, so what the functor throws leaves the function. *)
Definition run_functor (earlier : nat) (argument : DataMessage)
  : M frame std_exception () :=
  λ f, (functor_outcome earlier argument, f).

Definition on_error_functor : M frame std_exception () :=
  m ← gets original_data_message;
  earlier ← gets (λ f, on_error_invocations (effects f));
  emit (on_error_functor_call m) ;;
  modify (λ f, {| original_data_message := moved_from m;
                  success_count := success_count f;
                  failure_count := failure_count f;
                  effects := effects f |}) ;;
  run_functor earlier m.

(** The functor returns whenever it is called. *)
Definition functor_returns : Prop :=
  ∀ earlier m, functor_outcome earlier m = Normal ().

(** [int success_count(0), failure_count(0);] *)
Definition declare_counts : M frame std_exception () :=
  modify (λ f, {| original_data_message := original_data_message f;
                  success_count := 0;
                  failure_count := 0;
                  effects := effects f |}).

Definition incr_success_count : M frame std_exception () :=
  modify (λ f, {| original_data_message := original_data_message f;
                  success_count := success_count f + 1;
                  failure_count := failure_count f;
                  effects := effects f |}).

Definition incr_failure_count : M frame std_exception () :=
  modify (λ f, {| original_data_message := original_data_message f;
                  success_count := success_count f;
                  failure_count := failure_count f + 1;
                  effects := effects f |}).

(** The constructor call inside the [try] block. *)
Definition construct_ReturnCode (serialised_message : string)
  : M frame std_exception Z :=
  λ f, (ReturnCode serialised_message, f).

(** The body of the [for] loop, lines 79-94. *)
Definition loop_body (serialised_message : string) : M frame std_exception () :=
  try_catch
    (return_code_value ← construct_ReturnCode serialised_message;
     if bool_decide (return_code_value = success) then
       incr_success_count
     else
       (m ← gets original_data_message;
        emit (LOG_kWarning_received_error return_code_value m) ;;
        incr_failure_count))
    (λ e,
       incr_failure_count ;;
       emit (LOG_kError_what (what e))).

(** The function body, lines 70-106. *)
Definition HandleDeleteResponse_body (serialised_messages : list string)
  : M frame std_exception () :=
  (if bool_decide (serialised_messages = []) then
     (m ← gets original_data_message;
      emit (LOG_kError_no_responses m) ;;
      on_error_functor)
   else mret ()) ;;
  declare_counts ;;
  for_each serialised_messages loop_body ;;
  sc ← gets success_count;
  (if bool_decide (sc = 0) then
     (m ← gets original_data_message;
      fc ← gets failure_count;
      emit (LOG_kError_no_successful_responses m fc) ;;
      on_error_functor)
   else mret ()) ;;
  m ← gets original_data_message;
  sc ← gets success_count;
  fc ← gets failure_count;
  emit (LOG_kVerbose_overall_success m sc fc).

(** A call: the parameters are bound, the body runs, and the caller gets
    the completion together with the final frame. *)
Definition HandleDeleteResponse
    (original : DataMessage) (serialised_messages : list string)
  : completion std_exception () * frame :=
  HandleDeleteResponse_body serialised_messages
    {| original_data_message := original;
       success_count := 0; failure_count := 0; effects := [] |}.

(** A message that decodes to the success code. *)
Definition decodes_to_success (serialised_message : string) : bool :=
  match ReturnCode serialised_message with
  | Normal v => bool_decide (v = success)
  | Thrown _ => false
  end.

(** The log lines one message leaves behind in the loop, lines 82-93: a
    success is silent, any other return code gives the warning, a
    constructor that throws gives the error line with [e.what()].
    [logged] is the data message the warning prints. *)
Definition message_log (logged : DataMessage) (serialised_message : string)
  : list effect :=
  match ReturnCode serialised_message with
  | Normal value =>
      if bool_decide (value = success) then []
      else [LOG_kWarning_received_error value logged]
  | Thrown e => [LOG_kError_what (what e)]
  end.

(** The calls of the functor among the effects, oldest first. *)
Definition on_error_calls (es : list effect) : list effect :=
  filter (λ e, is_on_error_call e = true) es.

End HandleDeleteResponse.

Arguments effect DataMessage : clear implicits.
Arguments frame DataMessage : clear implicits.
Arguments original_data_message {DataMessage} f.
Arguments success_count {DataMessage} f.
Arguments failure_count {DataMessage} f.
Arguments effects {DataMessage} f.
Arguments LOG_kError_no_responses {DataMessage}.
Arguments LOG_kWarning_received_error {DataMessage}.
Arguments LOG_kError_what {DataMessage}.
Arguments LOG_kError_no_successful_responses {DataMessage}.
Arguments LOG_kVerbose_overall_success {DataMessage}.
Arguments on_error_functor_call {DataMessage}.
Arguments is_on_error_call {DataMessage} e.
Arguments on_error_invocations {DataMessage} es.
Arguments loop_body {DataMessage} ReturnCode success serialised_message.
Arguments message_log {DataMessage} ReturnCode success logged serialised_message.
Arguments on_error_calls {DataMessage} es.
Arguments HandleDeleteResponse {DataMessage} moved_from functor_outcome
  ReturnCode success original serialised_messages.
Arguments functor_returns {DataMessage} functor_outcome.

(** *** An instance to run the function on

    A message with the two fields the log lines print, a move that empties
    the name, and a decoder for three kinds of payload: the empty string is
    refused by [NonEmptyString], a payload starting with 0, 1 or 2 is that
    return code, anything else does not parse.  Two functors: one that
    returns, and an empty [std::function]. *)
Module sample.

Record DataMessage := { type : Z; name : string }.

Definition moved_from (m : DataMessage) : DataMessage :=
  {| type := type m; name := "" |}.

Definition ReturnCode (serialised_message : string)
  : completion std_exception Z :=
  if bool_decide (serialised_message = "") then
    Thrown {| what := "invalid string size" |}
  else if String.prefix "0" serialised_message then Normal 0
  else if String.prefix "1" serialised_message then Normal 1
  else if String.prefix "2" serialised_message then Normal 2
  else Thrown {| what := "parsing error" |}.

Definition success : Z := 0.

Definition chunk : DataMessage := {| type := 3; name := "chunk" |}.

Definition returning_functor (earlier : nat) (m : DataMessage)
  : completion std_exception () := Normal ().


Definition run (serialised_messages : list string) :=
  HandleDeleteResponse moved_from returning_functor ReturnCode success chunk
    serialised_messages.


End sample.

End nfs.

(** ** [maidsafe::nfs_client]: maid_node_nfs.cc *)

Module nfs_client.

(** *** Values passed through the facade

    Identities, keys and requests are opaque to the facade; each is
    represented by the identity string it carries. *)
Definition Identity := string.
Definition Name := Identity. (* passport::PublicPmid::Name *)
Definition duration := Z. (* std::chrono::steady_clock::duration *)
Definition TaskId := Z. (* routing::TaskId *)

Record Maid := { maid_name : Identity }. (* passport::Maid *)
Record Anmaid := { anmaid_name : Identity }. (* passport::Anmaid *)
Record Pmid := { pmid_identity : Identity }. (* passport::Pmid *)
Record PublicMaid := { public_maid_name : Identity }.
Record PublicAnmaid := { public_anmaid_name : Identity }.

Record AccountCreation := {
  creation_public_maid : PublicMaid;
  creation_public_anmaid : PublicAnmaid
}.
Record AccountRemoval := { removal_name : Identity }.
Record PmidRegistration := { registration_serialised : string }.

(** *** Errors *)

Inductive VaultErrors :=
| failed_to_handle_request
| account_already_exists
| unique_data_clash
| other_vault_error (value : Z).

Inductive error_code :=
| make_error_code (e : VaultErrors)
| error_code_in_category (category : string) (value : Z).

#[global] Instance VaultErrors_eq_dec : EqDecision VaultErrors.
Proof. solve_decision. Defined.
#[global] Instance error_code_eq_dec : EqDecision error_code.
Proof. solve_decision. Defined.

(** What a facade call can end with other than a value.  [DuplicateOperation]
    is signalled by [AddTask]; [aborted] stands for a failed [assert], which
    ends the process and is caught by no handler. *)
Inductive exception :=
| maidsafe_error (code : error_code)
| DuplicateOperation
| unknown_exception
| aborted.

(** *** Promises and futures

    [std::make_shared<boost::promise<T>>()] allocates a shared state; the
    promise, the closures that captured it and the future handed to the
    caller all refer to that one cell of the store. *)
Inductive promise_value :=
| void_value
| uint64_value (v : Z).

Inductive promise_state :=
| unresolved
| has_value (v : promise_value)
| has_exception (e : exception).

Abbreviation promise := nat.
Abbreviation future := nat.

Inductive future_status := future_status_ready | future_status_timeout.

(** *** What the quorum aggregator and the timer are given

    The terminal callbacks [HandleCreateAccountResult],
    [HandleRegisterPmidResult] and [HandlePmidHealthResult] are only ever
    stored by the facade, never called by it: a callback is the name of the
    handler with the promise its closure captured. *)
Inductive response_functor :=
| HandleCreateAccountResult (p : promise)
| HandleRegisterPmidResult (p : promise)
| HandlePmidHealthResult (p : promise).

(** [nfs::OpData<ResponseContents>(successes_required, response_functor)] *)
Record OpData := {
  successes_required : Z;
  op_response_functor : response_functor
}.

(** One entry of a timer.  The functor the facade registers is always
    [[op_data](ResponseContents r) {
       op_data->HandleResponseContents(std::move(r)); }]: it is represented
    by the [op_data] it captured. *)
Record Task := {
  task_timeout : duration;
  task_op_data : OpData;
  expected_response_count : Z
}.

(** Modelled from the spec: [routing::Timer] is not part of these sources.
    It is the "PendingOperationTable" together with its
    "CorrelationAllocator": a counter handing out fresh identifiers and a
    table of pending entries keyed by identifier. *)
Record Timer := {
  new_task_id_ : TaskId;
  tasks_ : gmap TaskId Task
}.

(** Modelled from the spec: a timer starts with no pending entry.  The spec
    fixes no first identifier; the counter starts at 0. *)
Definition Timer_ctor : Timer := {| new_task_id_ := 0; tasks_ := ∅ |}.

(** Requests handed to [dispatcher_]. *)
Inductive request :=
| SendCreateAccountRequest (task_id : TaskId) (account_creation : AccountCreation)
| SendRemoveAccountRequest (account_removal : AccountRemoval)
| SendRegisterPmidRequest (task_id : TaskId) (pmid_registration : PmidRegistration)
| SendUnregisterPmidRequest (pmid_name : Name)
| SendPmidHealthRequest (task_id : TaskId) (pmid_name : Name).

Section facade_state.

(** The timers a revision of [MaidNodeNfs] owns, by member name. *)
Context {timer : Type} `{EqDecision timer}.

(** What a call does to its collaborators, oldest first. *)
Inductive call :=
| call_NewTaskId (t : timer) (result : TaskId)
| call_AddTask (t : timer) (timeout : duration) (op_data : OpData)
    (expected_count : Z) (task_id : TaskId)
| call_dispatcher (r : request)
| call_wait_for (f : future) (seconds : Z)
| call_sleep_for (seconds : Z)
| std_cout (line : string).

(** The facade object with what it shares with its surroundings: its
    timers, the stored hint, the store of promise states, and the calls
    made so far.  [dispatcher_] is stateless: it shows as the
    [call_dispatcher] entries of [calls].  The mutex guarding the hint has
    no state of its own in a sequential run. *)
Record state := {
  timers : timer → Timer;
  pmid_node_hint_ : Name;
  promises : list promise_state;
  calls : list call
}.

Definition set_timers (f : (timer → Timer) → (timer → Timer)) (s : state) : state :=
  {| timers := f (timers s); pmid_node_hint_ := pmid_node_hint_ s;
     promises := promises s; calls := calls s |}.

Definition set_promises (f : list promise_state → list promise_state)
    (s : state) : state :=
  {| timers := timers s; pmid_node_hint_ := pmid_node_hint_ s;
     promises := f (promises s); calls := calls s |}.

Definition record_call (c : call) (s : state) : state :=
  {| timers := timers s; pmid_node_hint_ := pmid_node_hint_ s;
     promises := promises s; calls := calls s ++ [c] |}.

Definition facade := M state exception.

(** Modelled from the spec: [Timer::NewTaskId] is the allocator of the
    timer it is called on, "a pure counter/id-generation service". *)
Definition NewTaskId (t : timer) : facade TaskId :=
  λ s,
    let id := new_task_id_ (timers s t) in
    (Normal id,
     record_call (call_NewTaskId t id)
       (set_timers
          <[t := {| new_task_id_ := id + 1; tasks_ := tasks_ (timers s t) |}]> s)).

(** Modelled from the spec: [Timer::AddTask] is "Register": it "inserts a
    PendingEntry" and "fails (signals DuplicateOperation) if id already
    present". *)
Definition AddTask (t : timer) (timeout : duration) (op_data : OpData)
    (expected_count : Z) (task_id : TaskId) : facade () :=
  modify (record_call (call_AddTask t timeout op_data expected_count task_id)) ;;
  pending ← gets (λ s, tasks_ (timers s t) !! task_id);
  match pending with
  | Some _ => throw DuplicateOperation
  | None =>
      modify (set_timers (λ ts,
        <[t := {| new_task_id_ := new_task_id_ (ts t);
                  tasks_ := <[task_id :=
                               {| task_timeout := timeout;
                                  task_op_data := op_data;
                                  expected_response_count := expected_count |}]>
                              (tasks_ (ts t)) |}]> ts))
  end.

(** Modelled from the spec: an entry leaves the table when its operation is
    resolved or its deadline passes. *)
Definition remove_task (t : timer) (task_id : TaskId) (s : state) : state :=
  set_timers (λ ts,
    <[t := {| new_task_id_ := new_task_id_ (ts t);
              tasks_ := delete task_id (tasks_ (ts t)) |}]> ts) s.

(** [dispatcher_.SendXxxRequest(...)]: one send handed to routing. *)
Definition dispatcher_send (r : request) : facade () :=
  modify (record_call (call_dispatcher r)).

(** [std::make_shared<boost::promise<T>>()] *)
Definition make_shared_promise : facade promise :=
  p ← gets (λ s, length (promises s));
  modify (set_promises (λ ps, ps ++ [unresolved])) ;;
  mret p.

(** [promise->get_future()]: the future shares the promise's state. *)
Definition get_future (p : promise) : facade future := mret p.

(** What another thread does to a shared state: an unresolved promise
    takes the state that arrives, a promise that is already set keeps
    it. *)
Definition fulfil (p : promise) (arrived : promise_state) (s : state) : state :=
  set_promises (λ ps,
    match ps !! p with
    | Some unresolved => <[p := arrived]> ps
    | _ => ps
    end) s.

(** [future.wait_for(boost::chrono::seconds(n))].  [arrived] is what the
    other threads have put into the shared state by the end of the wait
    ([unresolved] when nothing came). *)
Definition wait_for (f : future) (seconds : Z) (arrived : promise_state)
  : facade future_status :=
  modify (record_call (call_wait_for f seconds)) ;;
  modify (fulfil f arrived) ;;
  st ← gets (λ s, promises s !! f);
  mret (match st with
        | Some unresolved | None => future_status_timeout
        | Some _ => future_status_ready
        end).

(** [future.has_exception()], with the stored exception when there is
    one. *)
Definition stored_exception (f : future) : facade (option exception) :=
  gets (λ s, match promises s !! f with
             | Some (has_exception e) => Some e
             | _ => None
             end).

(** [std::cout << line << std::endl] *)
Definition cout (line : string) : facade () := modify (record_call (std_cout line)).

Definition sleep_for (seconds : Z) : facade () :=
  modify (record_call (call_sleep_for seconds)).

(** [assert(c)]: nothing when [NDEBUG] is defined, otherwise the process is
    aborted when [c] is false. *)
Definition assert (NDEBUG c : bool) : facade () :=
  if NDEBUG then mret () else if c then mret () else throw aborted.

(** The constructor: every timer is constructed from the io service, the
    hint is stored.  [service_] and (second revision) [get_handler_] only
    receive references to the timers and the dispatcher. *)
Definition construct (pmid_node_hint : Name) : state :=
  {| timers := λ _, Timer_ctor; pmid_node_hint_ := pmid_node_hint;
     promises := []; calls := [] |}.

(** The calls made between two states of one run. *)
Definition calls_since (s s' : state) : list call :=
  drop (length (calls s)) (calls s').

End facade_state.

Arguments call timer : clear implicits.
Arguments state timer : clear implicits.
Arguments facade timer : clear implicits.

(** *** First revision of maid_node_nfs.cc (lines 19-95) *)

Module first_revision.

Inductive timer :=
| get_timer_
| get_versions_timer_
| get_branch_timer_
| create_account_timer_.

#[global] Instance timer_eq_dec : EqDecision timer.
Proof. solve_decision. Defined.

Module MaidNodeNfs.

Section methods.

(** [routing::Parameters::node_group_size], an unsigned 16-bit value
    promoted to [int] in the expressions below. *)
Variable node_group_size : Z.
Variable NDEBUG : bool.

Definition MaidNodeNfs (pmid_node_hint : Name) : state timer :=
  construct pmid_node_hint.

Definition pmid_node_hint : facade timer Name := gets pmid_node_hint_.

Definition set_pmid_node_hint (pmid_node_hint : Name) : facade timer () :=
  modify (λ s, {| timers := timers s; pmid_node_hint_ := pmid_node_hint;
                  promises := promises s; calls := calls s |}).

Definition CreateAccount (account_creation : AccountCreation)
    (timeout : duration) : facade timer future :=
  promise ← make_shared_promise;
  let response_functor := HandleCreateAccountResult promise in
  let op_data := {| successes_required := node_group_size - 1;
                    op_response_functor := response_functor |} in
  task_id ← NewTaskId get_timer_;
  AddTask create_account_timer_ timeout op_data (node_group_size * 2) task_id ;;
  dispatcher_send (SendCreateAccountRequest task_id account_creation) ;;
  get_future promise.

Definition RemoveAccount : facade timer () := assert NDEBUG false.

Definition RegisterPmid (pmid_registration : PmidRegistration)
  : facade timer () := assert NDEBUG false.

Definition UnregisterPmid (pmid_registration : PmidRegistration)
  : facade timer () := assert NDEBUG false.

Definition GetPmidHealth (pmid : Pmid) : facade timer () := assert NDEBUG false.

End methods.

End MaidNodeNfs.

End first_revision.

(** *** Second revision of maid_node_nfs.cc (lines 96-266) *)

Module MaidNodeNfs.

Inductive timer :=
| get_timer_
| put_timer_
| get_versions_timer_
| get_branch_timer_
| create_account_timer_
| pmid_health_timer_
| create_version_tree_timer_
| put_version_timer_
| register_pmid_timer_.

#[global] Instance timer_eq_dec : EqDecision timer.
Proof. solve_decision. Defined.

Section methods.

(** [routing::Parameters::group_size], an unsigned 16-bit value promoted
    to [int] in the expressions below. *)
Variable group_size : Z.

Definition MaidNodeNfs (pmid_node_hint : Name) : state timer :=
  construct pmid_node_hint.

Definition pmid_node_hint : facade timer Name := gets pmid_node_hint_.

Definition set_pmid_node_hint (pmid_node_hint : Name) : facade timer () :=
  modify (λ s, {| timers := timers s; pmid_node_hint_ := pmid_node_hint;
                  promises := promises s; calls := calls s |}).

Definition CreateAccount (account_creation : AccountCreation)
    (timeout : duration) : facade timer future :=
  promise ← make_shared_promise;
  let response_functor := HandleCreateAccountResult promise in
  let op_data := {| successes_required := group_size - 1;
                    op_response_functor := response_functor |} in
  task_id ← NewTaskId create_account_timer_;
  AddTask create_account_timer_ timeout op_data (group_size * 2) task_id ;;
  dispatcher_send (SendCreateAccountRequest task_id account_creation) ;;
  get_future promise.

Definition RemoveAccount (account_removal : AccountRemoval) : facade timer () :=
  dispatcher_send (SendRemoveAccountRequest account_removal).

Definition RegisterPmid (pmid_registration : PmidRegistration)
    (timeout : duration) : facade timer future :=
  promise ← make_shared_promise;
  let response_functor := HandleRegisterPmidResult promise in
  let op_data := {| successes_required := group_size - 1;
                    op_response_functor := response_functor |} in
  task_id ← NewTaskId create_account_timer_;
  AddTask register_pmid_timer_ timeout op_data (group_size - 1) task_id ;;
  dispatcher_send (SendRegisterPmidRequest task_id pmid_registration) ;;
  get_future promise.

Definition UnregisterPmid (pmid_name : Name) : facade timer () :=
  dispatcher_send (SendUnregisterPmidRequest pmid_name).

Definition GetPmidHealth (pmid_name : Name) (timeout : duration)
  : facade timer future :=
  promise ← make_shared_promise;
  let response_functor := HandlePmidHealthResult promise in
  let op_data := {| successes_required := group_size - 1;
                    op_response_functor := response_functor |} in
  task_id ← NewTaskId pmid_health_timer_;
  AddTask pmid_health_timer_ timeout op_data (group_size - 1) task_id ;;
  dispatcher_send (SendPmidHealthRequest task_id pmid_name) ;;
  get_future promise.

End methods.

(** The timer whose [NewTaskId] supplies the identifiers registered with
    timer [t] by the methods above. *)
Definition allocator_of (t : timer) : timer :=
  match t with
  | register_pmid_timer_ => create_account_timer_
  | _ => t
  end.

(** Every pending identifier of a timer was handed out earlier by the
    allocator that feeds it. *)
Definition pending_ids_allocated (s : state timer) : Prop :=
  ∀ t task_id, is_Some (tasks_ (timers s t) !! task_id) →
    task_id < new_task_id_ (timers s (allocator_of t)).

(** The states a facade goes through: it is constructed, its methods are
    called, and, in between, other threads remove tasks from the timers
    (resolution or expiry) and set promises. *)
Inductive reachable (group_size : Z) : state timer → Prop :=
| reachable_constructed hint :
    reachable group_size (MaidNodeNfs hint)
| reachable_set_pmid_node_hint s hint :
    reachable group_size s →
    reachable group_size (set_pmid_node_hint hint s).2
| reachable_CreateAccount s account_creation timeout :
    reachable group_size s →
    reachable group_size (CreateAccount group_size account_creation timeout s).2
| reachable_RemoveAccount s account_removal :
    reachable group_size s →
    reachable group_size (RemoveAccount account_removal s).2
| reachable_RegisterPmid s pmid_registration timeout :
    reachable group_size s →
    reachable group_size (RegisterPmid group_size pmid_registration timeout s).2
| reachable_UnregisterPmid s pmid_name :
    reachable group_size s →
    reachable group_size (UnregisterPmid pmid_name s).2
| reachable_GetPmidHealth s pmid_name timeout :
    reachable group_size s →
    reachable group_size (GetPmidHealth group_size pmid_name timeout s).2
| reachable_remove_task s t task_id :
    reachable group_size s →
    reachable group_size (remove_task t task_id s)
| reachable_fulfil s p arrived :
    reachable group_size s →
    reachable group_size (fulfil p arrived s).

End MaidNodeNfs.

(** *** The free function [CreateAccount] (second revision, lines 127-157) *)

Section CreateAccount.

Variable group_size : Z.
(** The default of the [timeout] parameter, declared in maid_node_nfs.h. *)
Variable default_timeout : duration.
(** [HexSubstr] of maidsafe/common/utils.h. *)
Variable HexSubstr : string → string.

(** [client_nfs] is the facade the state belongs to.  [arrived] is what
    reaches the future while the function waits for it. *)
Definition CreateAccount (maid : Maid) (anmaid : Anmaid)
    (arrived : promise_state) : facade MaidNodeNfs.timer () :=
  let public_maid := {| public_maid_name := maid_name maid |} in
  let public_anmaid := {| public_anmaid_name := anmaid_name anmaid |} in
  future ← MaidNodeNfs.CreateAccount group_size
             {| creation_public_maid := public_maid;
                creation_public_anmaid := public_anmaid |} default_timeout;
  status ← wait_for future 10 arrived;
  (match status with
   | future_status_timeout =>
       cout "can't create account" ;;
       throw (maidsafe_error (make_error_code failed_to_handle_request))
   | future_status_ready => mret ()
   end) ;;
  stored ← stored_exception future;
  match stored with
  | Some e =>
      (* future.get() rethrows the stored exception *)
      try_catch (throw e)
        (λ caught,
           match caught with
           | maidsafe_error code =>
               if bool_decide (code = make_error_code account_already_exists)
                  || bool_decide (code = make_error_code unique_data_clash)
               then cout "account already existed"
               else mret ()
           | aborted => throw aborted
           | _ => cout "caught an unknown exception"
           end)
      (* return; *)
  | None =>
      (* waiting for syncs resolved *)
      sleep_for 5 ;;
      cout ("Account created for maid " +:+ HexSubstr (public_maid_name public_maid))
  end.

End CreateAccount.

End nfs_client.

(** * Properties *)

(** ** The monad *)

Lemma bind_Normal {S E A B} (m : M S E A) (k : A → M S E B) s a s1 :
  m s = (Normal a, s1) → (m ≫= k) s = k a s1.
Proof. intros H. unfold mbind, M_bind. by rewrite H. Qed.

Lemma bind_Thrown {S E A B} (m : M S E A) (k : A → M S E B) s e s1 :
  m s = (Thrown e, s1) → (m ≫= k) s = (Thrown e, s1).
Proof. intros H. unfold mbind, M_bind. by rewrite H. Qed.

(** ** [HandleDeleteResponse] *)

Section HandleDeleteResponse_facts.

Context {DataMessage : Type}.
Variable moved_from : DataMessage → DataMessage.
Variable functor_outcome :
  nat → DataMessage → completion nfs.std_exception ().
Variable ReturnCode : string → completion nfs.std_exception Z.
Variable success : Z.

Local Abbreviation run :=
  (nfs.HandleDeleteResponse moved_from functor_outcome ReturnCode success).
Local Abbreviation loop_body := (nfs.loop_body (DataMessage:=DataMessage) ReturnCode success).
Local Abbreviation decodes := (nfs.decodes_to_success ReturnCode success).
Local Abbreviation message_log := (nfs.message_log (DataMessage:=DataMessage) ReturnCode success).
Local Abbreviation successes msgs :=
  (Z.of_nat (length (filter (λ x, decodes x = true) msgs))).
Local Abbreviation failures msgs :=
  (Z.of_nat (length (filter (λ x, decodes x = false) msgs))).
Local Abbreviation invocations f := (nfs.on_error_invocations (nfs.effects f)).

Lemma on_error_invocations_app (es1 es2 : list (nfs.effect DataMessage)) :
  nfs.on_error_invocations (es1 ++ es2) =
  (nfs.on_error_invocations es1 + nfs.on_error_invocations es2)%nat.
Proof. unfold nfs.on_error_invocations. by rewrite list.filter_app, length_app. Qed.

Lemma on_error_invocations_singleton (e : nfs.effect DataMessage) :
  nfs.on_error_invocations [e] = if nfs.is_on_error_call e then 1%nat else 0%nat.
Proof. destruct e; reflexivity. Qed.

(** One iteration: it always completes, it never calls the functor, and it
    adds one to exactly one of the two counters. *)
Lemma loop_body_step (msg : string) (f : nfs.frame DataMessage) :
  ∃ f', loop_body msg f = (Normal (), f')
    ∧ nfs.original_data_message f' = nfs.original_data_message f
    ∧ invocations f' = invocations f
    ∧ nfs.success_count f' =
        nfs.success_count f + (if decodes msg then 1 else 0)
    ∧ nfs.failure_count f' =
        nfs.failure_count f + (if decodes msg then 0 else 1).
Proof.
  unfold nfs.loop_body, nfs.decodes_to_success, try_catch, nfs.construct_ReturnCode.
  unfold mbind, M_bind at 1.
  destruct (ReturnCode msg) as [v|e]; simpl.
  - case_bool_decide; simpl; eexists; (split; [reflexivity|]); simpl;
      rewrite ?on_error_invocations_app; simpl;
      rewrite ?on_error_invocations_singleton; simpl;
      repeat split; first [reflexivity | lia].
  - eexists; (split; [reflexivity|]); simpl.
    rewrite on_error_invocations_app, on_error_invocations_singleton. simpl.
    repeat split; first [reflexivity | lia].
Qed.

(** The whole loop. *)
Lemma for_each_loop_body (msgs : list string) (f : nfs.frame DataMessage) :
  ∃ f', for_each msgs loop_body f = (Normal (), f')
    ∧ nfs.original_data_message f' = nfs.original_data_message f
    ∧ invocations f' = invocations f
    ∧ nfs.success_count f' = nfs.success_count f + successes msgs
    ∧ nfs.failure_count f' = nfs.failure_count f + failures msgs.
Proof.
  revert f. induction msgs as [|msg msgs IH]; intros f.
  - exists f. simpl. repeat split; lia.
  - destruct (loop_body_step msg f) as (f1 & E1 & Hm1 & Hi1 & Hs1 & Hf1).
    destruct (IH f1) as (f2 & E2 & Hm2 & Hi2 & Hs2 & Hf2).
    exists f2. simpl. unfold mbind, M_bind at 1. rewrite E1.
    split; [exact E2|].
    rewrite !filter_cons.
    destruct (decodes msg) eqn:D;
      repeat case_decide; try congruence; simpl length;
      repeat split; try congruence; lia.
Qed.

Lemma successes_failures_length (msgs : list string) :
  successes msgs + failures msgs = Z.of_nat (length msgs).
Proof.
  induction msgs as [|msg msgs IH]; [reflexivity|].
  rewrite !filter_cons.
  destruct (decodes msg); repeat case_decide; try congruence; simpl length; lia.
Qed.

Lemma successes_zero_iff (msgs : list string) :
  successes msgs = 0 ↔ Forall (λ x, decodes x = false) msgs.
Proof.
  induction msgs as [|msg msgs IH].
  - split; [constructor|reflexivity].
  - rewrite filter_cons, Forall_cons_iff.
    destruct (decodes msg); case_decide; try congruence; simpl length.
    + split; [lia|]. intros [? _]. congruence.
    + rewrite IH. tauto.
Qed.

(** One iteration, as an equation. *)
Lemma loop_body_exact (msg : string) (f : nfs.frame DataMessage) :
  loop_body msg f =
    (Normal (),
     {| nfs.original_data_message := nfs.original_data_message f;
        nfs.success_count :=
          nfs.success_count f + (if decodes msg then 1 else 0);
        nfs.failure_count :=
          nfs.failure_count f + (if decodes msg then 0 else 1);
        nfs.effects :=
          nfs.effects f ++ message_log (nfs.original_data_message f) msg |}).
Proof.
  unfold nfs.loop_body, nfs.decodes_to_success, nfs.message_log, try_catch,
    nfs.construct_ReturnCode.
  unfold mbind, M_bind at 1.
  destruct (ReturnCode msg) as [v|e]; simpl.
  - case_bool_decide; simpl; rewrite ?app_nil_r;
      repeat f_equal; first [reflexivity | lia].
  - unfold M_bind, nfs.emit, modify. simpl.
    repeat f_equal; first [reflexivity | lia].
Qed.

(** The loop, as an equation. *)
Lemma for_each_loop_body_exact (msgs : list string) (f : nfs.frame DataMessage) :
  for_each msgs loop_body f =
    (Normal (),
     {| nfs.original_data_message := nfs.original_data_message f;
        nfs.success_count := nfs.success_count f + successes msgs;
        nfs.failure_count := nfs.failure_count f + failures msgs;
        nfs.effects :=
          nfs.effects f
          ++ flat_map (message_log (nfs.original_data_message f)) msgs |}).
Proof.
  revert f. induction msgs as [|msg msgs IH]; intros f.
  - destruct f. simpl. rewrite app_nil_r, !Z.add_0_r. reflexivity.
  - simpl for_each. rewrite (bind_Normal _ _ _ _ _ (loop_body_exact msg f)).
    rewrite IH. simpl. rewrite !filter_cons.
    destruct (decodes msg); repeat case_decide; try congruence;
      simpl length; rewrite <- app_assoc; do 2 f_equal;
      first [reflexivity | lia].
Qed.

Lemma message_log_no_on_error_call (m : DataMessage) (msgs : list string) :
  nfs.on_error_calls (flat_map (message_log m) msgs) = [].
Proof.
  unfold nfs.on_error_calls.
  induction msgs as [|msg msgs IH]; [reflexivity|].
  simpl. rewrite list.filter_app, IH, app_nil_r.
  unfold nfs.message_log.
  destruct (ReturnCode msg); [case_bool_decide|]; reflexivity.
Qed.

Lemma message_log_invocations (m : DataMessage) (msgs : list string) :
  nfs.on_error_invocations (flat_map (message_log m) msgs) = 0%nat.
Proof.
  change (length (nfs.on_error_calls (flat_map (message_log m) msgs)) = 0%nat).
  by rewrite message_log_no_on_error_call.
Qed.

(** A call of the functor from a frame, as an equation. *)
Lemma on_error_functor_exact (f : nfs.frame DataMessage) :
  nfs.on_error_functor DataMessage moved_from functor_outcome f =
    (functor_outcome (invocations f) (nfs.original_data_message f),
     {| nfs.original_data_message := moved_from (nfs.original_data_message f);
        nfs.success_count := nfs.success_count f;
        nfs.failure_count := nfs.failure_count f;
        nfs.effects :=
          nfs.effects f ++ [nfs.on_error_functor_call (nfs.original_data_message f)] |}).
Proof. reflexivity. Qed.

(** A call on the empty vector, as an equation: the functor is called in
    the [empty()] branch and, if that call returns, once more after the
    loop. *)
Lemma HandleDeleteResponse_empty_exact (m : DataMessage) :
  run m [] =
    match functor_outcome 0%nat m with
    | Thrown e =>
        (Thrown e,
         {| nfs.original_data_message := moved_from m;
            nfs.success_count := 0;
            nfs.failure_count := 0;
            nfs.effects :=
              [nfs.LOG_kError_no_responses m; nfs.on_error_functor_call m] |})
    | Normal _ =>
        match functor_outcome 1%nat (moved_from m) with
        | Thrown e =>
            (Thrown e,
             {| nfs.original_data_message := moved_from (moved_from m);
                nfs.success_count := 0;
                nfs.failure_count := 0;
                nfs.effects :=
                  [nfs.LOG_kError_no_responses m;
                   nfs.on_error_functor_call m;
                   nfs.LOG_kError_no_successful_responses (moved_from m) 0;
                   nfs.on_error_functor_call (moved_from m)] |})
        | Normal _ =>
            (Normal (),
             {| nfs.original_data_message := moved_from (moved_from m);
                nfs.success_count := 0;
                nfs.failure_count := 0;
                nfs.effects :=
                  [nfs.LOG_kError_no_responses m;
                   nfs.on_error_functor_call m;
                   nfs.LOG_kError_no_successful_responses (moved_from m) 0;
                   nfs.on_error_functor_call (moved_from m);
                   nfs.LOG_kVerbose_overall_success
                     (moved_from (moved_from m)) 0 0] |})
        end
    end.
Proof.
  unfold nfs.HandleDeleteResponse, nfs.HandleDeleteResponse_body.
  rewrite (bool_decide_eq_true_2 ([] = [])) by reflexivity.
  unfold mbind at 1, M_bind at 1.
  unfold mbind at 1, M_bind at 1, gets at 1.
  unfold mbind at 1, M_bind at 1, nfs.emit at 1, modify at 1.
  rewrite on_error_functor_exact. simpl nfs.original_data_message.
  simpl nfs.effects.
  change (nfs.on_error_invocations [nfs.LOG_kError_no_responses m])
    with 0%nat.
  destruct (functor_outcome 0%nat m) as [[]|e]; [|reflexivity].
  unfold mbind at 1, M_bind at 1, nfs.declare_counts at 1, modify at 1.
  unfold mbind at 1, M_bind at 1. simpl for_each. unfold mret at 1, M_ret at 1.
  unfold mbind at 1, M_bind at 1, gets at 1. simpl nfs.success_count.
  rewrite (bool_decide_eq_true_2 (0 = 0)) by reflexivity.
  unfold mbind at 1, M_bind at 1.
  unfold mbind at 1, M_bind at 1, gets at 1.
  unfold mbind at 1, M_bind at 1, gets at 1.
  unfold mbind at 1, M_bind at 1, nfs.emit at 1, modify at 1.
  rewrite on_error_functor_exact. simpl nfs.original_data_message.
  simpl nfs.effects.
  change (nfs.on_error_invocations _) with 1%nat.
  destruct (functor_outcome 1%nat (moved_from m)) as [[]|e]; reflexivity.
Qed.

(** A call on a non-empty vector, as an equation. *)
Lemma HandleDeleteResponse_nonempty_exact (m : DataMessage) (msgs : list string) :
  msgs ≠ [] →
  run m msgs =
    if bool_decide (successes msgs = 0) then
      match functor_outcome 0%nat m with
      | Normal _ =>
          (Normal (),
           {| nfs.original_data_message := moved_from m;
              nfs.success_count := 0;
              nfs.failure_count := failures msgs;
              nfs.effects :=
                flat_map (message_log m) msgs
                ++ [nfs.LOG_kError_no_successful_responses m (failures msgs);
                    nfs.on_error_functor_call m;
                    nfs.LOG_kVerbose_overall_success (moved_from m) 0
                      (failures msgs)] |})
      | Thrown e =>
          (Thrown e,
           {| nfs.original_data_message := moved_from m;
              nfs.success_count := 0;
              nfs.failure_count := failures msgs;
              nfs.effects :=
                flat_map (message_log m) msgs
                ++ [nfs.LOG_kError_no_successful_responses m (failures msgs);
                    nfs.on_error_functor_call m] |})
      end
    else
      (Normal (),
       {| nfs.original_data_message := m;
          nfs.success_count := successes msgs;
          nfs.failure_count := failures msgs;
          nfs.effects :=
            flat_map (message_log m) msgs
            ++ [nfs.LOG_kVerbose_overall_success m (successes msgs)
                  (failures msgs)] |}).
Proof.
  intros Hne.
  unfold nfs.HandleDeleteResponse, nfs.HandleDeleteResponse_body.
  rewrite !(bool_decide_eq_false_2 (msgs = [])) by assumption.
  unfold mbind at 1, M_bind at 1, mret at 1, M_ret at 1.
  unfold mbind at 1, M_bind at 1.
  unfold nfs.declare_counts at 1, modify at 1. simpl.
  unfold mbind at 1, M_bind at 1.
  rewrite for_each_loop_body_exact. simpl.
  unfold mbind at 1, M_bind at 1. simpl.
  rewrite !Z.add_0_l.
  case_bool_decide as Hz; simpl; [|reflexivity].
  rewrite Hz.
  unfold mbind, M_bind, gets, nfs.emit, nfs.on_error_functor, nfs.run_functor,
    modify. simpl.
  rewrite on_error_invocations_app, message_log_invocations,
    on_error_invocations_singleton. simpl.
  destruct (functor_outcome 0%nat m) as [[]|e]; simpl;
    rewrite <- !app_assoc; reflexivity.
Qed.

(** What every call leaves behind, whatever the functor does. *)
Lemma HandleDeleteResponse_summary (m : DataMessage) (msgs : list string) :
  nfs.success_count (run m msgs).2 = successes msgs
  ∧ nfs.failure_count (run m msgs).2 = failures msgs
  ∧ ((0 < invocations (run m msgs).2)%nat ↔ successes msgs = 0).
Proof.
  destruct (decide (msgs = [])) as [->|Hne].
  - rewrite HandleDeleteResponse_empty_exact.
    destruct (functor_outcome 0%nat m) as [[]|e];
      [destruct (functor_outcome 1%nat (moved_from m)) as [[]|e]|];
      simpl; (split; [reflexivity|split; [reflexivity|]]);
      (split; [reflexivity|intros _]); unfold nfs.on_error_invocations;
      simpl; lia.
  - rewrite (HandleDeleteResponse_nonempty_exact m msgs Hne).
    case_bool_decide as Hz;
      [destruct (functor_outcome 0%nat m) as [[]|e]|]; simpl;
      rewrite on_error_invocations_app, message_log_invocations,
        ?Hz; (split; [reflexivity|split; [reflexivity|]]);
      unfold nfs.on_error_invocations; simpl; split; intros; first [lia|done].
Qed.

(** With a success in the vector the functor plays no part. *)
Lemma HandleDeleteResponse_with_success (m : DataMessage) (msgs : list string) :
  successes msgs ≠ 0 →
  run m msgs =
    (Normal (),
     {| nfs.original_data_message := m;
        nfs.success_count := successes msgs;
        nfs.failure_count := failures msgs;
        nfs.effects :=
          flat_map (message_log m) msgs
          ++ [nfs.LOG_kVerbose_overall_success m (successes msgs)
                (failures msgs)] |}).
Proof.
  intros Hpos.
  assert (msgs ≠ []) as Hne by (intros ->; by apply Hpos).
  rewrite (HandleDeleteResponse_nonempty_exact m msgs Hne).
  by rewrite bool_decide_eq_false_2.
Qed.

(** The call as a whole when the functor returns. *)
Lemma HandleDeleteResponse_outcome (m : DataMessage) (msgs : list string) :
  nfs.functor_returns functor_outcome →
  ∃ f', run m msgs = (Normal (), f')
    ∧ nfs.success_count f' = successes msgs
    ∧ nfs.failure_count f' = failures msgs
    ∧ invocations f' =
        ((if bool_decide (msgs = []) then 1%nat else 0%nat)
         + (if bool_decide (successes msgs = 0%Z) then 1%nat else 0%nat))%nat
    ∧ list.last (nfs.effects f') =
        Some (nfs.LOG_kVerbose_overall_success
                (nfs.original_data_message f') (successes msgs) (failures msgs)).
Proof.
  intros Hret.
  destruct (decide (msgs = [])) as [->|Hne].
  - rewrite HandleDeleteResponse_empty_exact, !Hret.
    eexists. split; [reflexivity|]. simpl. repeat split.
  - rewrite (HandleDeleteResponse_nonempty_exact m msgs Hne), Hret.
    rewrite (bool_decide_eq_false_2 (msgs = [])) by assumption.
    case_bool_decide as Hz; eexists; (split; [reflexivity|]); simpl;
      rewrite on_error_invocations_app, message_log_invocations, last_app,
        ?Hz; repeat split.
Qed.

Lemma counts_le_length (m : DataMessage) (msgs : list string) :
  0 ≤ nfs.success_count (run m msgs).2 ≤ Z.of_nat (length msgs)
  ∧ 0 ≤ nfs.failure_count (run m msgs).2 ≤ Z.of_nat (length msgs).
Proof.
  destruct (HandleDeleteResponse_summary m msgs) as (Hs & Hf & _).
  rewrite Hs, Hf.
  pose proof (successes_failures_length msgs). lia.
Qed.

Lemma invoked_iff_no_successes (m : DataMessage) (msgs : list string) :
  (0 < invocations (run m msgs).2)%nat ↔ successes msgs = 0.
Proof. apply HandleDeleteResponse_summary. Qed.

(** With at least one message the functor is called at most once. *)
Lemma on_error_at_most_once_nonempty (m : DataMessage) (msgs : list string) :
  msgs ≠ [] → (invocations (run m msgs).2 ≤ 1)%nat.
Proof.
  intros Hne. rewrite (HandleDeleteResponse_nonempty_exact m msgs Hne).
  case_bool_decide as Hz;
    [destruct (functor_outcome 0%nat m) as [[]|e]|]; simpl;
    rewrite on_error_invocations_app, message_log_invocations;
    unfold nfs.on_error_invocations; simpl; lia.
Qed.

(** C1 (the code departs from the claim).  The claim: for every list of
    serialised responses, the empty one included, one call of
    [HandleDeleteResponse] invokes [on_error_functor] at most once.  On the
    empty list, with a functor that returns, the code invokes it twice:
    once in the [empty()] branch, which does not return, and once more
    because [success_count] is still 0 after the loop; the second call
    receives the moved-from message. *)
Theorem HandleDeleteResponse_empty_invokes_on_error_twice (m : DataMessage) :
  functor_outcome 0%nat m = Normal () →
  invocations (run m []).2 = 2%nat
  ∧ (functor_outcome 1%nat (moved_from m) = Normal () →
     run m [] =
       (Normal (),
        {| nfs.original_data_message := moved_from (moved_from m);
           nfs.success_count := 0;
           nfs.failure_count := 0;
           nfs.effects :=
             [nfs.LOG_kError_no_responses m;
              nfs.on_error_functor_call m;
              nfs.LOG_kError_no_successful_responses (moved_from m) 0;
              nfs.on_error_functor_call (moved_from m);
              nfs.LOG_kVerbose_overall_success (moved_from (moved_from m)) 0 0] |})).
Proof.
  intros Hfirst. rewrite HandleDeleteResponse_empty_exact, Hfirst. split.
  - destruct (functor_outcome 1%nat (moved_from m)) as [[]|e]; reflexivity.
  - intros ->. reflexivity.
Qed.

(** C2.  [HandleDeleteResponse] invokes [on_error_functor] if and only if
    no message of the list decodes to the success code; the empty list
    gives the failure outcome; a list with at least one message that
    decodes to success ends with the "Overall success" line and the
    functor is never invoked. *)
Theorem HandleDeleteResponse_on_error_iff_no_success
    (m : DataMessage) (msgs : list string) :
  ((0 < invocations (run m msgs).2)%nat
   ↔ Forall (λ x, decodes x = false) msgs)
  ∧ (0 < invocations (run m []).2)%nat
  ∧ (Exists (λ x, decodes x = true) msgs →
     (run m msgs).1 = Normal ()
     ∧ invocations (run m msgs).2 = 0%nat
     ∧ 0 < nfs.success_count (run m msgs).2
     ∧ list.last (nfs.effects (run m msgs).2) =
         Some (nfs.LOG_kVerbose_overall_success
                 (nfs.original_data_message (run m msgs).2)
                 (nfs.success_count (run m msgs).2)
                 (nfs.failure_count (run m msgs).2))).
Proof.
  split; [|split].
  - rewrite invoked_iff_no_successes. apply successes_zero_iff.
  - rewrite invoked_iff_no_successes. reflexivity.
  - intros Hex.
    assert (successes msgs ≠ 0) as Hpos.
    { rewrite successes_zero_iff. intros Hall.
      apply Exists_exists in Hex as (x & Hin & Hx).
      rewrite Forall_forall in Hall. specialize (Hall x Hin). congruence. }
    rewrite (HandleDeleteResponse_with_success m msgs Hpos). simpl.
    rewrite on_error_invocations_app, message_log_invocations, last_snoc.
    repeat split. lia.
Qed.


(** C4.  The verdict does not depend on the order of arrival: for a list
    and any permutation of it the two counters agree and the functor is
    invoked for the one exactly when it is invoked for the other. *)
Theorem HandleDeleteResponse_permutation
    (m : DataMessage) (msgs1 msgs2 : list string) :
  msgs1 ≡ₚ msgs2 →
  nfs.success_count (run m msgs1).2 = nfs.success_count (run m msgs2).2
  ∧ nfs.failure_count (run m msgs1).2 = nfs.failure_count (run m msgs2).2
  ∧ ((0 < invocations (run m msgs1).2)%nat
     ↔ (0 < invocations (run m msgs2).2)%nat).
Proof.
  intros Hp.
  assert (successes msgs1 = successes msgs2) as Hs by (by rewrite Hp).
  assert (failures msgs1 = failures msgs2) as Hf by (by rewrite Hp).
  rewrite !invoked_iff_no_successes, Hs.
  destruct (HandleDeleteResponse_summary m msgs1) as (Hs1 & Hf1 & _).
  destruct (HandleDeleteResponse_summary m msgs2) as (Hs2 & Hf2 & _).
  rewrite Hs1, Hf1, Hs2, Hf2.
  split; [exact Hs|split; [exact Hf|reflexivity]].
Qed.

End HandleDeleteResponse_facts.

(** Runs on the sample instance. *)

Lemma sample_functor_returns : nfs.functor_returns nfs.sample.returning_functor.
Proof. intros earlier m. reflexivity. Qed.

Lemma HandleDeleteResponse_empty_invokes_on_error_twice_witness :
  nfs.on_error_invocations (nfs.effects (nfs.sample.run []).2) = 2%nat.
Proof.
  exact (proj1
    (HandleDeleteResponse_empty_invokes_on_error_twice
       nfs.sample.moved_from nfs.sample.returning_functor
       nfs.sample.ReturnCode nfs.sample.success nfs.sample.chunk eq_refl)).
Defined.

Lemma HandleDeleteResponse_on_error_iff_no_success_witness :
  Exists (λ x, nfs.decodes_to_success nfs.sample.ReturnCode nfs.sample.success x = true)
    ["2"; "0"]
  ∧ nfs.on_error_invocations (nfs.effects (nfs.sample.run ["2"; "0"]).2) = 0%nat.
Proof.
  assert (Exists
            (λ x, nfs.decodes_to_success nfs.sample.ReturnCode nfs.sample.success x = true)
            ["2"; "0"]) as H
    by (apply Exists_cons_tl, Exists_cons_hd; reflexivity).
  split; [exact H|].
  exact (proj1 (proj2 (proj2 (proj2
    (HandleDeleteResponse_on_error_iff_no_success
       nfs.sample.moved_from nfs.sample.returning_functor
       nfs.sample.ReturnCode nfs.sample.success
       nfs.sample.chunk ["2"; "0"])) H))).
Defined.



Lemma HandleDeleteResponse_permutation_witness :
  ["0"; "2"] ≡ₚ ["2"; "0"]
  ∧ nfs.success_count (nfs.sample.run ["0"; "2"]).2 =
      nfs.success_count (nfs.sample.run ["2"; "0"]).2.
Proof.
  assert (["0"; "2"] ≡ₚ ["2"; "0"]) as H by apply perm_swap.
  split; [exact H|].
  exact (proj1
    (HandleDeleteResponse_permutation
       nfs.sample.moved_from nfs.sample.returning_functor
       nfs.sample.ReturnCode nfs.sample.success
       nfs.sample.chunk ["0"; "2"] ["2"; "0"] H)).
Defined.

(** ** The facade *)

Import nfs_client.

Section quorum_call.

Context {timer : Type} `{EqDecision timer}.

(** The sequence every quorum-correlated method runs: a promise is made,
    an identifier is taken from the timer [alloc], a task is registered
    with the timer [reg], the request is sent, the future is returned. *)
Lemma quorum_call_spec (alloc reg : timer) (timeout : duration)
    (mk_op_data : promise → OpData) (expected : Z)
    (mk_request : TaskId → request) (s : state timer) :
  let id := new_task_id_ (timers s alloc) in
  let p := length (promises s) in
  let allocated :=
    <[alloc := {| new_task_id_ := id + 1;
                  tasks_ := tasks_ (timers s alloc) |}]> (timers s) in
  let task := {| task_timeout := timeout; task_op_data := mk_op_data p;
                 expected_response_count := expected |} in
  let r := (promise ← make_shared_promise;
            task_id ← NewTaskId alloc;
            AddTask reg timeout (mk_op_data promise) expected task_id ;;
            dispatcher_send (mk_request task_id) ;;
            get_future promise) s in
  pmid_node_hint_ r.2 = pmid_node_hint_ s
  ∧ promises r.2 = promises s ++ [unresolved]
  ∧ match tasks_ (timers s reg) !! id with
    | None =>
        r.1 = Normal p
        ∧ calls r.2 =
            calls s ++ [call_NewTaskId alloc id;
                        call_AddTask reg timeout (mk_op_data p) expected id;
                        call_dispatcher (mk_request id)]
        ∧ timers r.2 =
            <[reg := {| new_task_id_ := new_task_id_ (allocated reg);
                        tasks_ := <[id := task]> (tasks_ (allocated reg)) |}]>
              allocated
    | Some _ =>
        r.1 = Thrown DuplicateOperation
        ∧ calls r.2 =
            calls s ++ [call_NewTaskId alloc id;
                        call_AddTask reg timeout (mk_op_data p) expected id]
        ∧ timers r.2 = allocated
    end.
Proof.
  intros id p allocated task r.
  assert (tasks_ (allocated reg) = tasks_ (timers s reg)) as Htasks.
  { unfold allocated, insert, fn_insert.
    destruct (decide (alloc = reg)) as [->|]; reflexivity. }
  subst r.
  unfold make_shared_promise, NewTaskId, AddTask, dispatcher_send, get_future.
  unfold mbind, M_bind, mret, M_ret, gets, modify, throw. cbn.
  fold id. fold allocated. rewrite Htasks.
  destruct (tasks_ (timers s reg) !! id) as [pending|]; cbn;
    rewrite <- ?app_assoc; cbn; repeat split; try reflexivity.
  rewrite <- Htasks. reflexivity.
Qed.

(** Whether or not the registration succeeds, the first two calls are the
    allocation on [alloc] and the registration on [reg]; only the counter
    of [alloc] moves. *)
Lemma quorum_call_first_calls (alloc reg : timer) (timeout : duration)
    (mk_op_data : promise → OpData) (expected : Z)
    (mk_request : TaskId → request) (s : state timer) :
  let id := new_task_id_ (timers s alloc) in
  let p := length (promises s) in
  let r := (promise ← make_shared_promise;
            task_id ← NewTaskId alloc;
            AddTask reg timeout (mk_op_data promise) expected task_id ;;
            dispatcher_send (mk_request task_id) ;;
            get_future promise) s in
  calls_since s r.2 !! 0%nat = Some (call_NewTaskId alloc id)
  ∧ calls_since s r.2 !! 1%nat =
      Some (call_AddTask reg timeout (mk_op_data p) expected id)
  ∧ new_task_id_ (timers r.2 alloc) = id + 1
  ∧ (alloc ≠ reg →
     new_task_id_ (timers r.2 reg) = new_task_id_ (timers s reg)).
Proof.
  intros id p r.
  destruct (quorum_call_spec alloc reg timeout mk_op_data expected mk_request s)
    as (_ & _ & Hcase).
  fold id p r in Hcase. unfold calls_since.
  destruct (tasks_ (timers s reg) !! id); destruct Hcase as (_ & Hcalls & Ht);
    rewrite Hcalls, Ht, drop_app_length;
    (split; [reflexivity|split; [reflexivity|split; [|intros Hne]]]);
    unfold insert, fn_insert; repeat (case_decide; simpl); congruence.
Qed.

End quorum_call.

Section facade_facts.

Variable group_size : Z.

Local Abbreviation facade_state := (state MaidNodeNfs.timer).
Local Abbreviation pending_ids_allocated := MaidNodeNfs.pending_ids_allocated.
Local Abbreviation create_account_timer_ := MaidNodeNfs.create_account_timer_.
Local Abbreviation register_pmid_timer_ := MaidNodeNfs.register_pmid_timer_.
Local Abbreviation pmid_health_timer_ := MaidNodeNfs.pmid_health_timer_.
Local Abbreviation op_data f :=
  {| successes_required := group_size - 1; op_response_functor := f |}.

Lemma calls_since_app (s s' : facade_state) (cs : list (call MaidNodeNfs.timer)) :
  calls s' = calls s ++ cs → calls_since s s' = cs.
Proof. intros Hcs. unfold calls_since. rewrite Hcs. apply drop_app_length. Qed.

(** *** Identifiers are fresh where they are registered *)

Lemma constructed_pending_ids_allocated (hint : Name) :
  pending_ids_allocated (MaidNodeNfs.MaidNodeNfs hint).
Proof.
  intros t task_id [task Htask]. simpl in Htask.
  rewrite lookup_empty in Htask. discriminate.
Qed.

Lemma allocated_id_not_pending (s : facade_state) (reg : MaidNodeNfs.timer) :
  pending_ids_allocated s →
  tasks_ (timers s reg)
    !! new_task_id_ (timers s (MaidNodeNfs.allocator_of reg)) = None.
Proof.
  intros Hinv.
  destruct (tasks_ (timers s reg) !! _) as [task|] eqn:E; [|reflexivity].
  specialize (Hinv reg _ (mk_is_Some _ _ E)). lia.
Qed.

(** Registering, with timer [reg], the identifier just taken from the
    allocator that feeds [reg] keeps every pending identifier below its
    allocator. *)
Lemma register_allocated_keeps_ids_allocated
    (s s' : facade_state) (alloc reg : MaidNodeNfs.timer) (id : TaskId)
    (task : Task) (allocated : MaidNodeNfs.timer → Timer) :
  MaidNodeNfs.allocator_of reg = alloc →
  id = new_task_id_ (timers s alloc) →
  allocated =
    <[alloc := {| new_task_id_ := id + 1;
                  tasks_ := tasks_ (timers s alloc) |}]> (timers s) →
  timers s' =
    <[reg := {| new_task_id_ := new_task_id_ (allocated reg);
                tasks_ := <[id := task]> (tasks_ (allocated reg)) |}]>
      allocated →
  pending_ids_allocated s → pending_ids_allocated s'.
Proof.
  intros Halloc Hid Hallocated Ht Hinv t task_id Hpending.
  assert (MaidNodeNfs.allocator_of alloc = alloc) as Hidem
    by (rewrite <- Halloc; destruct reg; reflexivity).
  assert (∀ x, new_task_id_ (timers s' x) =
               if decide (x = alloc) then id + 1 else new_task_id_ (timers s x))
    as Hnew.
  { intros x. rewrite Ht, Hallocated. unfold insert, fn_insert.
    repeat (case_decide; simpl); congruence. }
  assert (tasks_ (timers s' t) =
          if decide (t = reg) then <[id := task]> (tasks_ (timers s reg))
          else tasks_ (timers s t)) as Htasks.
  { assert (∀ y, tasks_ (allocated y) = tasks_ (timers s y)) as Hat.
    { intros y. rewrite Hallocated. unfold insert, fn_insert.
      case_decide; simpl; congruence. }
    rewrite Ht. case_decide as Ht'.
    - rewrite Ht', fn_lookup_insert. simpl. by rewrite Hat.
    - rewrite fn_lookup_insert_ne by congruence. apply Hat. }
  rewrite Htasks in Hpending. rewrite Hnew.
  destruct (decide (t = reg)) as [->|Hne].
  - rewrite Halloc, decide_True by reflexivity.
    destruct (decide (task_id = id)) as [->|Hne]; [lia|].
    rewrite lookup_insert_ne in Hpending by congruence.
    specialize (Hinv reg task_id Hpending). rewrite Halloc in Hinv. lia.
  - specialize (Hinv t task_id Hpending).
    case_decide as Hx; [|exact Hinv].
    rewrite Hx in Hinv. lia.
Qed.

Lemma remove_task_keeps_ids_allocated
    (s : facade_state) (t : MaidNodeNfs.timer) (task_id : TaskId) :
  pending_ids_allocated s → pending_ids_allocated (remove_task t task_id s).
Proof.
  intros Hinv t' id' Hpending.
  assert (∀ x, new_task_id_ (timers (remove_task t task_id s) x) =
               new_task_id_ (timers s x)) as Hnew.
  { intros x. simpl. unfold insert, fn_insert. case_decide; simpl; congruence. }
  rewrite Hnew. apply Hinv.
  simpl in Hpending. unfold insert, fn_insert in Hpending.
  case_decide as Ht; [|exact Hpending].
  rewrite <- Ht. simpl in Hpending.
  by apply lookup_delete_is_Some in Hpending as [_ ?].
Qed.

(** *** The quorum-correlated methods *)

Lemma quorum_call_allocated (alloc reg : MaidNodeNfs.timer) (timeout : duration)
    (mk_op_data : promise → OpData) (expected : Z)
    (mk_request : TaskId → request) (s : facade_state) :
  MaidNodeNfs.allocator_of reg = alloc →
  pending_ids_allocated s →
  let id := new_task_id_ (timers s alloc) in
  let fut := length (promises s) in
  let r := (promise ← make_shared_promise;
            task_id ← NewTaskId alloc;
            AddTask reg timeout (mk_op_data promise) expected task_id ;;
            dispatcher_send (mk_request task_id) ;;
            get_future promise) s in
  r.1 = Normal fut
  ∧ calls_since s r.2 =
      [call_NewTaskId alloc id;
       call_AddTask reg timeout (mk_op_data fut) expected id;
       call_dispatcher (mk_request id)]
  ∧ tasks_ (timers r.2 reg) !! id =
      Some {| task_timeout := timeout; task_op_data := mk_op_data fut;
              expected_response_count := expected |}
  ∧ promises r.2 !! fut = Some unresolved
  ∧ pending_ids_allocated r.2.
Proof.
  intros Halloc Hinv id fut r.
  destruct (quorum_call_spec alloc reg timeout mk_op_data expected mk_request s)
    as (_ & Hp & Hcase).
  fold id fut r in Hp, Hcase.
  pose proof (allocated_id_not_pending s reg Hinv) as Hfresh.
  rewrite Halloc in Hfresh. fold id in Hfresh. rewrite Hfresh in Hcase.
  destruct Hcase as (Hr & Hcalls & Ht).
  split; [exact Hr|]. split; [by apply calls_since_app|].
  split; [|split].
  - rewrite Ht, fn_lookup_insert. simpl. apply lookup_insert_eq.
  - rewrite Hp. subst fut. by rewrite list_lookup_middle.
  - eapply register_allocated_keeps_ids_allocated;
      [exact Halloc|reflexivity|reflexivity|exact Ht|exact Hinv].
Qed.

(** C6.  In a facade whose pending identifiers were all handed out by the
    allocators that feed their timers (as after construction and after any
    sequence of the methods), each of [CreateAccount], [RegisterPmid] and
    [GetPmidHealth] makes exactly three calls, in this order: it takes an
    identifier, registers the task under that identifier with the supplied
    timeout and the expected count, and sends the request.  It returns the
    future of a promise that is unresolved when the call returns. *)
Theorem quorum_methods_allocate_register_dispatch (s : facade_state) :
  pending_ids_allocated s →
  (∀ account_creation timeout,
     let r := MaidNodeNfs.CreateAccount group_size account_creation timeout s in
     let id := new_task_id_ (timers s create_account_timer_) in
     let fut := length (promises s) in
     r.1 = Normal fut
     ∧ calls_since s r.2 =
         [call_NewTaskId create_account_timer_ id;
          call_AddTask create_account_timer_ timeout
            (op_data (HandleCreateAccountResult fut)) (group_size * 2) id;
          call_dispatcher (SendCreateAccountRequest id account_creation)]
     ∧ tasks_ (timers r.2 create_account_timer_) !! id =
         Some {| task_timeout := timeout;
                 task_op_data := op_data (HandleCreateAccountResult fut);
                 expected_response_count := group_size * 2 |}
     ∧ promises r.2 !! fut = Some unresolved)
  ∧ (∀ pmid_registration timeout,
       let r := MaidNodeNfs.RegisterPmid group_size pmid_registration timeout s in
       let id := new_task_id_ (timers s create_account_timer_) in
       let fut := length (promises s) in
       r.1 = Normal fut
       ∧ calls_since s r.2 =
           [call_NewTaskId create_account_timer_ id;
            call_AddTask register_pmid_timer_ timeout
              (op_data (HandleRegisterPmidResult fut)) (group_size - 1) id;
            call_dispatcher (SendRegisterPmidRequest id pmid_registration)]
       ∧ tasks_ (timers r.2 register_pmid_timer_) !! id =
           Some {| task_timeout := timeout;
                   task_op_data := op_data (HandleRegisterPmidResult fut);
                   expected_response_count := group_size - 1 |}
       ∧ promises r.2 !! fut = Some unresolved)
  ∧ (∀ pmid_name timeout,
       let r := MaidNodeNfs.GetPmidHealth group_size pmid_name timeout s in
       let id := new_task_id_ (timers s pmid_health_timer_) in
       let fut := length (promises s) in
       r.1 = Normal fut
       ∧ calls_since s r.2 =
           [call_NewTaskId pmid_health_timer_ id;
            call_AddTask pmid_health_timer_ timeout
              (op_data (HandlePmidHealthResult fut)) (group_size - 1) id;
            call_dispatcher (SendPmidHealthRequest id pmid_name)]
       ∧ tasks_ (timers r.2 pmid_health_timer_) !! id =
           Some {| task_timeout := timeout;
                   task_op_data := op_data (HandlePmidHealthResult fut);
                   expected_response_count := group_size - 1 |}
       ∧ promises r.2 !! fut = Some unresolved).
Proof.
  intros Hinv. split; [|split].
  - intros account_creation timeout.
    destruct (quorum_call_allocated create_account_timer_ create_account_timer_
                timeout (λ p, op_data (HandleCreateAccountResult p))
                (group_size * 2)
                (λ id, SendCreateAccountRequest id account_creation) s
                eq_refl Hinv) as (H1 & H2 & H3 & H4 & _).
    exact (conj H1 (conj H2 (conj H3 H4))).
  - intros pmid_registration timeout.
    destruct (quorum_call_allocated create_account_timer_ register_pmid_timer_
                timeout (λ p, op_data (HandleRegisterPmidResult p))
                (group_size - 1)
                (λ id, SendRegisterPmidRequest id pmid_registration) s
                eq_refl Hinv) as (H1 & H2 & H3 & H4 & _).
    exact (conj H1 (conj H2 (conj H3 H4))).
  - intros pmid_name timeout.
    destruct (quorum_call_allocated pmid_health_timer_ pmid_health_timer_
                timeout (λ p, op_data (HandlePmidHealthResult p))
                (group_size - 1)
                (λ id, SendPmidHealthRequest id pmid_name) s
                eq_refl Hinv) as (H1 & H2 & H3 & H4 & _).
    exact (conj H1 (conj H2 (conj H3 H4))).
Qed.

(** The methods keep pending identifiers below their allocators. *)
Lemma methods_keep_ids_allocated (s : facade_state) :
  pending_ids_allocated s →
  (∀ ac timeout,
     pending_ids_allocated (MaidNodeNfs.CreateAccount group_size ac timeout s).2)
  ∧ (∀ reg timeout,
       pending_ids_allocated (MaidNodeNfs.RegisterPmid group_size reg timeout s).2)
  ∧ (∀ name timeout,
       pending_ids_allocated (MaidNodeNfs.GetPmidHealth group_size name timeout s).2)
  ∧ (∀ removal, pending_ids_allocated (MaidNodeNfs.RemoveAccount removal s).2)
  ∧ (∀ name, pending_ids_allocated (MaidNodeNfs.UnregisterPmid name s).2)
  ∧ (∀ hint, pending_ids_allocated (MaidNodeNfs.set_pmid_node_hint hint s).2).
Proof.
  intros Hinv. repeat split; intros; try exact Hinv.
  - apply (quorum_call_allocated create_account_timer_ create_account_timer_
             timeout (λ p, op_data (HandleCreateAccountResult p)) (group_size * 2)
             (λ id, SendCreateAccountRequest id ac) s eq_refl Hinv).
  - apply (quorum_call_allocated create_account_timer_ register_pmid_timer_
             timeout (λ p, op_data (HandleRegisterPmidResult p)) (group_size - 1)
             (λ id, SendRegisterPmidRequest id reg) s eq_refl Hinv).
  - apply (quorum_call_allocated pmid_health_timer_ pmid_health_timer_
             timeout (λ p, op_data (HandlePmidHealthResult p)) (group_size - 1)
             (λ id, SendPmidHealthRequest id name) s eq_refl Hinv).
Qed.

Lemma reachable_pending_ids_allocated (s : facade_state) :
  MaidNodeNfs.reachable group_size s → pending_ids_allocated s.
Proof.
  induction 1 as [hint|s hint _ IH|s ac timeout _ IH|s removal _ IH
                 |s reg timeout _ IH|s name _ IH|s name timeout _ IH
                 |s t task_id _ IH|s p arrived _ IH];
    try exact IH.
  - apply constructed_pending_ids_allocated.
  - exact (proj1 (methods_keep_ids_allocated s IH) ac timeout).
  - exact (proj1 (proj2 (methods_keep_ids_allocated s IH)) reg timeout).
  - exact (proj1 (proj2 (proj2 (methods_keep_ids_allocated s IH))) name timeout).
  - exact (remove_task_keeps_ids_allocated s t task_id IH).
Qed.

(** C8.  The quorum parameters: [CreateAccount] builds its aggregator with
    threshold [group_size - 1] and registers the expected response count
    [group_size * 2]; [RegisterPmid] and [GetPmidHealth] use
    [group_size - 1] for both.  The registration is the second call each
    method makes, in every state. *)
Theorem quorum_parameters (s : facade_state) :
  (∀ account_creation timeout,
     calls_since s
       (MaidNodeNfs.CreateAccount group_size account_creation timeout s).2
       !! 1%nat =
     Some (call_AddTask create_account_timer_ timeout
             {| successes_required := group_size - 1;
                op_response_functor :=
                  HandleCreateAccountResult (length (promises s)) |}
             (group_size * 2)
             (new_task_id_ (timers s create_account_timer_))))
  ∧ (∀ pmid_registration timeout,
       calls_since s
         (MaidNodeNfs.RegisterPmid group_size pmid_registration timeout s).2
         !! 1%nat =
       Some (call_AddTask register_pmid_timer_ timeout
               {| successes_required := group_size - 1;
                  op_response_functor :=
                    HandleRegisterPmidResult (length (promises s)) |}
               (group_size - 1)
               (new_task_id_ (timers s create_account_timer_))))
  ∧ (∀ pmid_name timeout,
       calls_since s
         (MaidNodeNfs.GetPmidHealth group_size pmid_name timeout s).2
         !! 1%nat =
       Some (call_AddTask pmid_health_timer_ timeout
               {| successes_required := group_size - 1;
                  op_response_functor :=
                    HandlePmidHealthResult (length (promises s)) |}
               (group_size - 1)
               (new_task_id_ (timers s pmid_health_timer_)))).
Proof.
  split; [|split]; intros x timeout.
  - apply (quorum_call_first_calls create_account_timer_ create_account_timer_
             timeout (λ p, op_data (HandleCreateAccountResult p)) (group_size * 2)
             (λ id, SendCreateAccountRequest id x) s).
  - apply (quorum_call_first_calls create_account_timer_ register_pmid_timer_
             timeout (λ p, op_data (HandleRegisterPmidResult p)) (group_size - 1)
             (λ id, SendRegisterPmidRequest id x) s).
  - apply (quorum_call_first_calls pmid_health_timer_ pmid_health_timer_
             timeout (λ p, op_data (HandlePmidHealthResult p)) (group_size - 1)
             (λ id, SendPmidHealthRequest id x) s).
Qed.

(** C7 (the code departs from the claim).  The claim: the identifier a
    method registers with a timer was allocated by that same timer, for
    [RegisterPmid] in particular.  [RegisterPmid] takes its identifier from
    [create_account_timer_] and registers it with [register_pmid_timer_]:
    the counter of [create_account_timer_] advances, the allocator of
    [register_pmid_timer_] is never consulted. *)
Theorem RegisterPmid_identifier_from_create_account_timer
    (s : facade_state) (pmid_registration : PmidRegistration)
    (timeout : duration) :
  let r := MaidNodeNfs.RegisterPmid group_size pmid_registration timeout s in
  let id := new_task_id_ (timers s create_account_timer_) in
  calls_since s r.2 !! 0%nat = Some (call_NewTaskId create_account_timer_ id)
  ∧ calls_since s r.2 !! 1%nat =
      Some (call_AddTask register_pmid_timer_ timeout
              (op_data (HandleRegisterPmidResult (length (promises s))))
              (group_size - 1) id)
  ∧ create_account_timer_ ≠ register_pmid_timer_
  ∧ new_task_id_ (timers r.2 create_account_timer_) = id + 1
  ∧ new_task_id_ (timers r.2 register_pmid_timer_) =
      new_task_id_ (timers s register_pmid_timer_).
Proof.
  intros r id.
  destruct (quorum_call_first_calls create_account_timer_ register_pmid_timer_
              timeout (λ p, op_data (HandleRegisterPmidResult p)) (group_size - 1)
              (λ id, SendRegisterPmidRequest id pmid_registration) s)
    as (H0 & H1 & Hc & Hr).
  repeat split; [exact H0|exact H1|discriminate|exact Hc|].
  apply Hr. discriminate.
Qed.

(** The sibling methods do take the identifier from the timer they
    register with. *)
Lemma CreateAccount_GetPmidHealth_identifier_from_own_timer
    (s : facade_state) (timeout : duration) :
  (∀ account_creation,
     calls_since s
       (MaidNodeNfs.CreateAccount group_size account_creation timeout s).2
       !! 0%nat =
     Some (call_NewTaskId create_account_timer_
             (new_task_id_ (timers s create_account_timer_))))
  ∧ (∀ pmid_name,
       calls_since s
         (MaidNodeNfs.GetPmidHealth group_size pmid_name timeout s).2
         !! 0%nat =
       Some (call_NewTaskId pmid_health_timer_
               (new_task_id_ (timers s pmid_health_timer_)))).
Proof.
  split; intros x.
  - apply (quorum_call_first_calls create_account_timer_ create_account_timer_
             timeout (λ p, op_data (HandleCreateAccountResult p)) (group_size * 2)
             (λ id, SendCreateAccountRequest id x) s).
  - apply (quorum_call_first_calls pmid_health_timer_ pmid_health_timer_
             timeout (λ p, op_data (HandlePmidHealthResult p)) (group_size - 1)
             (λ id, SendPmidHealthRequest id x) s).
Qed.

(** *** The fire-and-forget methods *)

(** C5.  [RemoveAccount] and [UnregisterPmid] each make exactly one call,
    a dispatcher send.  No timer changes: no identifier is taken and no
    task is registered.  No promise is made, and the call returns unit. *)
Theorem fire_and_forget_methods (s : facade_state) :
  (∀ account_removal,
     let r := MaidNodeNfs.RemoveAccount account_removal s in
     r.1 = Normal ()
     ∧ calls_since s r.2 =
         [call_dispatcher (SendRemoveAccountRequest account_removal)]
     ∧ timers r.2 = timers s
     ∧ promises r.2 = promises s)
  ∧ (∀ pmid_name,
       let r := MaidNodeNfs.UnregisterPmid pmid_name s in
       r.1 = Normal ()
       ∧ calls_since s r.2 =
           [call_dispatcher (SendUnregisterPmidRequest pmid_name)]
       ∧ timers r.2 = timers s
       ∧ promises r.2 = promises s).
Proof.
  split; intros x; simpl;
    (split; [reflexivity|split; [|split; reflexivity]]);
    by apply calls_since_app.
Qed.

(** *** The stored hint *)

(** C10.  [set_pmid_node_hint v] followed by [pmid_node_hint] gives [v];
    after construction with hint [h], [pmid_node_hint] gives [h]; none of
    [CreateAccount], [RemoveAccount], [RegisterPmid], [UnregisterPmid] and
    [GetPmidHealth] changes the stored hint.  The two accessors and the
    constructor read the same in the first revision. *)
Theorem pmid_node_hint_stored :
  (∀ (s : facade_state) v,
     ((MaidNodeNfs.set_pmid_node_hint v ;; MaidNodeNfs.pmid_node_hint) s).1
     = Normal v)
  ∧ (∀ h, (MaidNodeNfs.pmid_node_hint (MaidNodeNfs.MaidNodeNfs h)).1 = Normal h)
  ∧ (∀ (s : facade_state),
       (∀ account_creation timeout,
          pmid_node_hint_
            (MaidNodeNfs.CreateAccount group_size account_creation timeout s).2
          = pmid_node_hint_ s)
       ∧ (∀ account_removal,
            pmid_node_hint_ (MaidNodeNfs.RemoveAccount account_removal s).2
            = pmid_node_hint_ s)
       ∧ (∀ pmid_registration timeout,
            pmid_node_hint_
              (MaidNodeNfs.RegisterPmid group_size pmid_registration timeout s).2
            = pmid_node_hint_ s)
       ∧ (∀ pmid_name,
            pmid_node_hint_ (MaidNodeNfs.UnregisterPmid pmid_name s).2
            = pmid_node_hint_ s)
       ∧ (∀ pmid_name timeout,
            pmid_node_hint_
              (MaidNodeNfs.GetPmidHealth group_size pmid_name timeout s).2
            = pmid_node_hint_ s))
  ∧ (∀ (s : state first_revision.timer) v,
       ((first_revision.MaidNodeNfs.set_pmid_node_hint v ;;
         first_revision.MaidNodeNfs.pmid_node_hint) s).1 = Normal v)
  ∧ (∀ h, (first_revision.MaidNodeNfs.pmid_node_hint
             (first_revision.MaidNodeNfs.MaidNodeNfs h)).1 = Normal h).
Proof.
  split; [reflexivity|]. split; [reflexivity|].
  split; [|split; reflexivity].
  intros s. repeat split; intros; try reflexivity.
  - apply (quorum_call_spec create_account_timer_ create_account_timer_
             timeout (λ p, op_data (HandleCreateAccountResult p)) (group_size * 2)
             (λ id, SendCreateAccountRequest id account_creation) s).
  - apply (quorum_call_spec create_account_timer_ register_pmid_timer_
             timeout (λ p, op_data (HandleRegisterPmidResult p)) (group_size - 1)
             (λ id, SendRegisterPmidRequest id pmid_registration) s).
  - apply (quorum_call_spec pmid_health_timer_ pmid_health_timer_
             timeout (λ p, op_data (HandlePmidHealthResult p)) (group_size - 1)
             (λ id, SendPmidHealthRequest id pmid_name) s).
Qed.

End facade_facts.

(** ** The free function [CreateAccount] *)

Section CreateAccount_facts.

Variable group_size : Z.
Variable default_timeout : duration.
Variable HexSubstr : string → string.

Local Abbreviation facade_state := (state MaidNodeNfs.timer).
Local Abbreviation account_creation_of maid anmaid :=
  {| creation_public_maid := {| public_maid_name := maid_name maid |};
     creation_public_anmaid := {| public_anmaid_name := anmaid_name anmaid |} |}.

Lemma CreateAccount_returned_future
    (s : facade_state) (account_creation : AccountCreation)
    (timeout : duration) (fut : future) :
  (MaidNodeNfs.CreateAccount group_size account_creation timeout s).1
  = Normal fut →
  fut = length (promises s)
  ∧ promises (MaidNodeNfs.CreateAccount group_size account_creation timeout s).2
    = promises s ++ [unresolved].
Proof.
  intros Hfut.
  pose proof (quorum_call_spec
                MaidNodeNfs.create_account_timer_
                MaidNodeNfs.create_account_timer_ timeout
                (λ p, {| successes_required := group_size - 1;
                         op_response_functor := HandleCreateAccountResult p |})
                (group_size * 2)
                (λ id, SendCreateAccountRequest id account_creation) s)
    as Hspec.
  unfold MaidNodeNfs.CreateAccount in *. cbv zeta beta in Hspec.
  destruct Hspec as (_ & Hp & Hcase).
  split; [|exact Hp].
  destruct (tasks_ _ !! _); destruct Hcase as (Hc & _); congruence.
Qed.

(** C9.  When the facade's [CreateAccount] has returned a future and that
    future resolves, within the wait, with the error
    [account_already_exists] or [unique_data_clash], the free function
    prints "account already existed" and returns normally: nothing is
    thrown to its caller. *)
Theorem CreateAccount_already_exists_returns_normally
    (s : facade_state) (maid : Maid) (anmaid : Anmaid)
    (code : error_code) (fut : future) :
  (MaidNodeNfs.CreateAccount group_size (account_creation_of maid anmaid)
     default_timeout s).1 = Normal fut →
  code = make_error_code account_already_exists
  ∨ code = make_error_code unique_data_clash →
  let r := CreateAccount group_size default_timeout HexSubstr maid anmaid
             (has_exception (maidsafe_error code)) s in
  r.1 = Normal ()
  ∧ list.last (calls r.2) = Some (std_cout "account already existed")
  ∧ promises r.2 !! fut = Some (has_exception (maidsafe_error code)).
Proof.
  intros Hfut Hcode r. subst r. unfold CreateAccount.
  destruct (CreateAccount_returned_future s _ _ _ Hfut) as (Hlen & Hp).
  destruct (MaidNodeNfs.CreateAccount group_size (account_creation_of maid anmaid)
              default_timeout s) as [c1 s1] eqn:E1.
  simpl in Hfut, Hp. subst c1.
  assert (promises s1 !! fut = Some unresolved) as Hun.
  { rewrite Hp, Hlen. by rewrite list_lookup_middle. }
  assert (fut < length (promises s1))%nat as Hlt
    by (by apply lookup_lt_Some in Hun).
  rewrite (bind_Normal _ _ _ _ _ E1).
  unfold wait_for, fulfil, stored_exception, cout, try_catch.
  unfold mbind, M_bind, mret, M_ret, gets, modify, throw. cbn.
  repeat (rewrite ?Hun, ?list_lookup_insert_eq by assumption; cbn).
  assert (bool_decide (code = make_error_code account_already_exists)
          || bool_decide (code = make_error_code unique_data_clash) = true)
    as Hknown.
  { apply orb_true_iff. rewrite !bool_decide_eq_true. exact Hcode. }
  rewrite Hknown. cbn.
  repeat (rewrite ?Hun, ?list_lookup_insert_eq, ?last_snoc by assumption; cbn).
  repeat split.
Qed.

End CreateAccount_facts.

(** The other two ways out of the free function: nothing arrives within the
    wait and [failed_to_handle_request] is thrown; a value arrives and the
    account is reported as created. *)
Lemma CreateAccount_free_function_on_fresh_facade :
  let fresh := MaidNodeNfs.MaidNodeNfs "hint" in
  let maid := {| maid_name := "maid" |} in
  let anmaid := {| anmaid_name := "anmaid" |} in
  (CreateAccount 4 30 (λ x, x) maid anmaid unresolved fresh).1
  = Thrown (maidsafe_error (make_error_code failed_to_handle_request))
  ∧ (CreateAccount 4 30 (λ x, x) maid anmaid (has_value void_value) fresh).1
    = Normal ()
  ∧ list.last
      (calls (CreateAccount 4 30 (λ x, x) maid anmaid (has_value void_value) fresh).2)
    = Some (std_cout "Account created for maid maid").
Proof. repeat split. Qed.

(** ** The first revision *)

Section first_revision_facts.

Variable node_group_size : Z.

(** The first revision of [CreateAccount] takes its identifier from
    [get_timer_] and registers it with [create_account_timer_]. *)
Lemma first_revision_CreateAccount_identifier_from_get_timer
    (s : state first_revision.timer) (account_creation : AccountCreation)
    (timeout : duration) :
  let r := first_revision.MaidNodeNfs.CreateAccount node_group_size
             account_creation timeout s in
  let id := new_task_id_ (timers s first_revision.get_timer_) in
  calls_since s r.2 !! 0%nat
  = Some (call_NewTaskId first_revision.get_timer_ id)
  ∧ calls_since s r.2 !! 1%nat
    = Some (call_AddTask first_revision.create_account_timer_ timeout
              {| successes_required := node_group_size - 1;
                 op_response_functor :=
                   HandleCreateAccountResult (length (promises s)) |}
              (node_group_size * 2) id).
Proof.
  intros r id.
  destruct (quorum_call_first_calls
              first_revision.get_timer_ first_revision.create_account_timer_
              timeout
              (λ p, {| successes_required := node_group_size - 1;
                       op_response_functor := HandleCreateAccountResult p |})
              (node_group_size * 2)
              (λ id, SendCreateAccountRequest id account_creation) s)
    as (H0 & H1 & _).
  split; [exact H0|exact H1].
Qed.

(** In the first revision the other four methods are [assert(0)]: they
    make no call at all, and abort unless [NDEBUG] is defined. *)
Lemma first_revision_placeholders (NDEBUG : bool)
    (s : state first_revision.timer) :
  let stopped := if NDEBUG then Normal () else Thrown aborted in
  first_revision.MaidNodeNfs.RemoveAccount NDEBUG s = (stopped, s)
  ∧ (∀ r, first_revision.MaidNodeNfs.RegisterPmid NDEBUG r s = (stopped, s))
  ∧ (∀ r, first_revision.MaidNodeNfs.UnregisterPmid NDEBUG r s = (stopped, s))
  ∧ (∀ p, first_revision.MaidNodeNfs.GetPmidHealth NDEBUG p s = (stopped, s)).
Proof. destruct NDEBUG; repeat split. Qed.

End first_revision_facts.

(** ** Runs on a freshly constructed facade *)

Lemma quorum_methods_allocate_register_dispatch_witness :
  MaidNodeNfs.pending_ids_allocated (MaidNodeNfs.MaidNodeNfs "hint")
  ∧ (MaidNodeNfs.RegisterPmid 4 {| registration_serialised := "pmid" |} 30
       (MaidNodeNfs.MaidNodeNfs "hint")).1 = Normal 0%nat.
Proof.
  split; [apply constructed_pending_ids_allocated|].
  exact (proj1 (proj1 (proj2
    (quorum_methods_allocate_register_dispatch 4
       (MaidNodeNfs.MaidNodeNfs "hint")
       (constructed_pending_ids_allocated "hint")))
    {| registration_serialised := "pmid" |} 30)).
Defined.

Lemma CreateAccount_already_exists_returns_normally_witness :
  (CreateAccount 4 30 (λ x, x) {| maid_name := "maid" |}
     {| anmaid_name := "anmaid" |}
     (has_exception (maidsafe_error (make_error_code account_already_exists)))
     (MaidNodeNfs.MaidNodeNfs "hint")).1 = Normal ().
Proof.
  exact (proj1
    (CreateAccount_already_exists_returns_normally 4 30 (λ x, x)
       (MaidNodeNfs.MaidNodeNfs "hint") {| maid_name := "maid" |}
       {| anmaid_name := "anmaid" |}
       (make_error_code account_already_exists) 0%nat
       eq_refl (or_introl eq_refl))).
Defined.

(** * Further properties *)

(** ** [HandleDeleteResponse]: counters, log and functor calls *)

Section HandleDeleteResponse_trace.

Context {DataMessage : Type}.
Variable moved_from : DataMessage → DataMessage.
Variable functor_outcome :
  nat → DataMessage → completion nfs.std_exception ().
Variable ReturnCode : string → completion nfs.std_exception Z.
Variable success : Z.

Local Abbreviation run :=
  (nfs.HandleDeleteResponse moved_from functor_outcome ReturnCode success).
Local Abbreviation decodes := (nfs.decodes_to_success ReturnCode success).
Local Abbreviation message_log := (nfs.message_log (DataMessage:=DataMessage) ReturnCode success).
Local Abbreviation successes msgs :=
  (Z.of_nat (length (filter (λ x, decodes x = true) msgs))).
Local Abbreviation failures msgs :=
  (Z.of_nat (length (filter (λ x, decodes x = false) msgs))).
Local Abbreviation nonempty_exact :=
  (HandleDeleteResponse_nonempty_exact moved_from functor_outcome ReturnCode
     success).
Local Abbreviation summary :=
  (HandleDeleteResponse_summary moved_from functor_outcome ReturnCode success).

(** X1.  Every message is counted exactly once: when the call returns,
    [success_count] is the number of messages that decode to the success
    code, [failure_count] is the number of all others (other codes and
    constructions that throw), and the two add up to the size of the
    vector. *)
Theorem HandleDeleteResponse_counts_every_message_once
    (m : DataMessage) (msgs : list string) :
  nfs.success_count (run m msgs).2 = successes msgs
  ∧ nfs.failure_count (run m msgs).2 = failures msgs
  ∧ nfs.success_count (run m msgs).2 + nfs.failure_count (run m msgs).2
    = Z.of_nat (length msgs).
Proof.
  destruct (summary m msgs) as (Hs & Hf & _).
  rewrite Hs, Hf.
  pose proof (successes_failures_length ReturnCode success msgs).
  repeat split; lia.
Qed.

(** X2.  On a non-empty vector the functor is called at most once.  When
    no message decodes to success it is called exactly once, with the
    message as it was passed in, and the local copy is left moved-from;
    when some message decodes to success it is not called and the local
    copy is intact. *)
Theorem HandleDeleteResponse_nonempty_functor_calls
    (m : DataMessage) (msgs : list string) :
  msgs ≠ [] →
  (length (nfs.on_error_calls (nfs.effects (run m msgs).2)) ≤ 1)%nat
  ∧ (Forall (λ x, decodes x = false) msgs →
     nfs.on_error_calls (nfs.effects (run m msgs).2)
       = [nfs.on_error_functor_call m]
     ∧ nfs.original_data_message (run m msgs).2 = moved_from m)
  ∧ (Exists (λ x, decodes x = true) msgs →
     nfs.on_error_calls (nfs.effects (run m msgs).2) = []
     ∧ nfs.original_data_message (run m msgs).2 = m).
Proof.
  intros Hne. rewrite (nonempty_exact m msgs Hne).
  pose proof (successes_zero_iff ReturnCode success msgs) as Hzero.
  unfold nfs.on_error_calls.
  case_bool_decide as Hz;
    [destruct (functor_outcome 0%nat m) as [[]|e]|]; simpl;
    rewrite list.filter_app;
    fold (nfs.on_error_calls (flat_map (message_log m) msgs));
    rewrite (message_log_no_on_error_call ReturnCode success); simpl.
  1,2: split; [reflexivity|]; split; [intros _; split; reflexivity|];
    intros Hex; exfalso;
    apply Hzero in Hz; apply Exists_exists in Hex as (x & Hin & Hx);
    rewrite Forall_forall in Hz; specialize (Hz x Hin); congruence.
  split; [simpl; lia|]. split; [|intros _; split; reflexivity].
  intros Hall. exfalso. apply Hz, Hzero, Hall.
Qed.

(** X3.  When the functor returns, the log of a call on a non-empty vector
    follows the arrival order: first the lines of the messages, one per
    message that is not a success and none for a success, then the
    verdict.  With no success the verdict is the "No successful responses"
    line, the functor call and the "Overall success" line printed from
    the moved-from message; otherwise it is the "Overall success" line
    alone. *)
Theorem HandleDeleteResponse_log_in_arrival_order
    (m : DataMessage) (msgs : list string) :
  nfs.functor_returns functor_outcome →
  msgs ≠ [] →
  nfs.effects (run m msgs).2 =
    flat_map (message_log m) msgs
    ++ (if bool_decide (nfs.success_count (run m msgs).2 = 0) then
          [nfs.LOG_kError_no_successful_responses m
             (nfs.failure_count (run m msgs).2);
           nfs.on_error_functor_call m;
           nfs.LOG_kVerbose_overall_success (moved_from m) 0
             (nfs.failure_count (run m msgs).2)]
        else
          [nfs.LOG_kVerbose_overall_success m
             (nfs.success_count (run m msgs).2)
             (nfs.failure_count (run m msgs).2)]).
Proof.
  intros Hret Hne. rewrite (nonempty_exact m msgs Hne), Hret.
  case_bool_decide as Hz; simpl.
  - reflexivity.
  - rewrite bool_decide_eq_false_2 by assumption. reflexivity.
Qed.

(** X4.  When the functor returns, the "Overall success" line is written
    even though the call has signalled failure: if no message decodes to
    success (the empty vector included) the functor is invoked and the
    last effect of the call is still the "Overall success" line, with 0
    successes and as many failures as there are messages. *)
Theorem HandleDeleteResponse_logs_overall_success_after_failure
    (m : DataMessage) (msgs : list string) :
  nfs.functor_returns functor_outcome →
  Forall (λ x, decodes x = false) msgs →
  (0 < nfs.on_error_invocations (nfs.effects (run m msgs).2))%nat
  ∧ list.last (nfs.effects (run m msgs).2) =
      Some (nfs.LOG_kVerbose_overall_success
              (nfs.original_data_message (run m msgs).2) 0
              (Z.of_nat (length msgs))).
Proof.
  intros Hret Hall.
  pose proof (proj2 (successes_zero_iff ReturnCode success msgs) Hall) as Hz.
  pose proof (successes_failures_length ReturnCode success msgs) as Hlen.
  split.
  - apply invoked_iff_no_successes. exact Hz.
  - destruct (HandleDeleteResponse_outcome moved_from functor_outcome
                ReturnCode success m msgs Hret)
      as (f' & E & _ & _ & _ & Hl).
    rewrite E. simpl. rewrite Hl. do 2 f_equal; lia.
Qed.

(** X5.  The counters are additive over batches: for a vector made of two
    parts, each counter is the sum of the counters the two parts give on
    their own. *)
Theorem HandleDeleteResponse_counts_additive
    (m : DataMessage) (msgs1 msgs2 : list string) :
  nfs.success_count (run m (msgs1 ++ msgs2)).2
    = nfs.success_count (run m msgs1).2 + nfs.success_count (run m msgs2).2
  ∧ nfs.failure_count (run m (msgs1 ++ msgs2)).2
    = nfs.failure_count (run m msgs1).2 + nfs.failure_count (run m msgs2).2.
Proof.
  destruct (summary m (msgs1 ++ msgs2)) as (Hs & Hf & _).
  destruct (summary m msgs1) as (Hs1 & Hf1 & _).
  destruct (summary m msgs2) as (Hs2 & Hf2 & _).
  rewrite Hs, Hf, Hs1, Hf1, Hs2, Hf2.
  rewrite !list.filter_app, !length_app. split; lia.
Qed.

End HandleDeleteResponse_trace.

Lemma HandleDeleteResponse_nonempty_functor_calls_witness :
  ["1"; ""] ≠ []
  ∧ nfs.on_error_calls (nfs.effects (nfs.sample.run ["1"; ""]).2)
    = [nfs.on_error_functor_call nfs.sample.chunk].
Proof.
  assert (["1"; ""] ≠ []) as Hne by discriminate.
  split; [exact Hne|].
  refine (proj1 (proj1 (proj2
    (HandleDeleteResponse_nonempty_functor_calls
       nfs.sample.moved_from nfs.sample.returning_functor
       nfs.sample.ReturnCode nfs.sample.success
       nfs.sample.chunk ["1"; ""] Hne)) _)).
  repeat constructor.
Defined.

Lemma HandleDeleteResponse_log_in_arrival_order_witness :
  nfs.functor_returns nfs.sample.returning_functor
  ∧ ["1"; "0"; ""] ≠ []
  ∧ nfs.effects (nfs.sample.run ["1"; "0"; ""]).2 =
      [nfs.LOG_kWarning_received_error 1 nfs.sample.chunk;
       nfs.LOG_kError_what "invalid string size";
       nfs.LOG_kVerbose_overall_success nfs.sample.chunk 1 2].
Proof.
  assert (["1"; "0"; ""] ≠ []) as Hne by discriminate.
  split; [exact sample_functor_returns|]. split; [exact Hne|].
  exact (HandleDeleteResponse_log_in_arrival_order
           nfs.sample.moved_from nfs.sample.returning_functor
           nfs.sample.ReturnCode nfs.sample.success
           nfs.sample.chunk ["1"; "0"; ""] sample_functor_returns Hne).
Defined.

Lemma HandleDeleteResponse_logs_overall_success_after_failure_witness :
  nfs.functor_returns nfs.sample.returning_functor
  ∧ Forall (λ x,
      nfs.decodes_to_success nfs.sample.ReturnCode nfs.sample.success x = false)
      ["2"; "zz"]
  ∧ list.last (nfs.effects (nfs.sample.run ["2"; "zz"]).2) =
      Some (nfs.LOG_kVerbose_overall_success
              (nfs.sample.moved_from nfs.sample.chunk) 0 2).
Proof.
  assert (Forall (λ x,
            nfs.decodes_to_success nfs.sample.ReturnCode nfs.sample.success x
            = false) ["2"; "zz"]) as Hall by (repeat constructor).
  split; [exact sample_functor_returns|]. split; [exact Hall|].
  exact (proj2
    (HandleDeleteResponse_logs_overall_success_after_failure
       nfs.sample.moved_from nfs.sample.returning_functor
       nfs.sample.ReturnCode nfs.sample.success
       nfs.sample.chunk ["2"; "zz"] sample_functor_returns Hall)).
Defined.

(** ** The facade: what a quorum-correlated method changes *)

Section quorum_call_frame.

Context {timer : Type} `{EqDecision timer}.

Lemma quorum_call_untouched (alloc reg : timer) (timeout : duration)
    (mk_op_data : promise → OpData) (expected : Z)
    (mk_request : TaskId → request) (s : state timer) :
  let id := new_task_id_ (timers s alloc) in
  let r := (promise ← make_shared_promise;
            task_id ← NewTaskId alloc;
            AddTask reg timeout (mk_op_data promise) expected task_id ;;
            dispatcher_send (mk_request task_id) ;;
            get_future promise) s in
  (∀ t, new_task_id_ (timers r.2 t) =
        if decide (t = alloc) then id + 1 else new_task_id_ (timers s t))
  ∧ (∀ t task_id, t ≠ reg ∨ task_id ≠ id →
       tasks_ (timers r.2 t) !! task_id = tasks_ (timers s t) !! task_id)
  ∧ promises r.2 = promises s ++ [unresolved].
Proof.
  intros id r.
  destruct (quorum_call_spec alloc reg timeout mk_op_data expected mk_request s)
    as (_ & Hp & Hcase).
  fold id r in Hp, Hcase.
  assert (∀ t, tasks_ ((<[alloc := {| new_task_id_ := id + 1;
                                     tasks_ := tasks_ (timers s alloc) |}]>
                         (timers s)) t) = tasks_ (timers s t)) as Hat.
  { intros t. unfold insert, fn_insert. case_decide; simpl; congruence. }
  split; [|split; [|exact Hp]].
  - intros t.
    destruct (tasks_ (timers s reg) !! id); destruct Hcase as (_ & _ & Ht);
      rewrite Ht; unfold insert, fn_insert;
      repeat (case_decide; simpl); congruence.
  - intros t task_id Hother.
    destruct (tasks_ (timers s reg) !! id); destruct Hcase as (_ & _ & Ht);
      rewrite Ht; [apply (f_equal (λ m, m !! task_id)), Hat|].
    destruct (decide (reg = t)) as [<-|Hne].
    + rewrite fn_lookup_insert. simpl.
      rewrite lookup_insert_ne by (destruct Hother; congruence).
      apply (f_equal (λ m, m !! task_id)), Hat.
    + rewrite fn_lookup_insert_ne by assumption.
      apply (f_equal (λ m, m !! task_id)), Hat.
Qed.

End quorum_call_frame.

Section facade_frame.

Variable group_size : Z.

Local Abbreviation facade_state := (state MaidNodeNfs.timer).
Local Abbreviation create_account_timer_ := MaidNodeNfs.create_account_timer_.
Local Abbreviation register_pmid_timer_ := MaidNodeNfs.register_pmid_timer_.
Local Abbreviation pmid_health_timer_ := MaidNodeNfs.pmid_health_timer_.
Local Abbreviation op_data f :=
  {| successes_required := group_size - 1; op_response_functor := f |}.
Local Abbreviation CreateAccount_as_quorum_call account_creation timeout s :=
  (quorum_call_untouched create_account_timer_ create_account_timer_ timeout
     (λ p, op_data (HandleCreateAccountResult p)) (group_size * 2)
     (λ id, SendCreateAccountRequest id account_creation) s).
Local Abbreviation RegisterPmid_as_quorum_call pmid_registration timeout s :=
  (quorum_call_untouched create_account_timer_ register_pmid_timer_ timeout
     (λ p, op_data (HandleRegisterPmidResult p)) (group_size - 1)
     (λ id, SendRegisterPmidRequest id pmid_registration) s).
Local Abbreviation GetPmidHealth_as_quorum_call pmid_name timeout s :=
  (quorum_call_untouched pmid_health_timer_ pmid_health_timer_ timeout
     (λ p, op_data (HandlePmidHealthResult p)) (group_size - 1)
     (λ id, SendPmidHealthRequest id pmid_name) s).

(** X6.  A quorum-correlated method advances exactly one allocator, by
    exactly one: [CreateAccount] and [RegisterPmid] that of
    [create_account_timer_], [GetPmidHealth] that of [pmid_health_timer_].
    The counter of every other timer is left as it was; this holds whether
    or not the registration is accepted. *)
Theorem quorum_methods_advance_one_allocator (s : facade_state) :
  (∀ account_creation timeout t,
     new_task_id_
       (timers (MaidNodeNfs.CreateAccount group_size account_creation timeout s).2 t)
     = if decide (t = create_account_timer_)
       then new_task_id_ (timers s create_account_timer_) + 1
       else new_task_id_ (timers s t))
  ∧ (∀ pmid_registration timeout t,
       new_task_id_
         (timers (MaidNodeNfs.RegisterPmid group_size pmid_registration timeout s).2 t)
       = if decide (t = create_account_timer_)
         then new_task_id_ (timers s create_account_timer_) + 1
         else new_task_id_ (timers s t))
  ∧ (∀ pmid_name timeout t,
       new_task_id_
         (timers (MaidNodeNfs.GetPmidHealth group_size pmid_name timeout s).2 t)
       = if decide (t = pmid_health_timer_)
         then new_task_id_ (timers s pmid_health_timer_) + 1
         else new_task_id_ (timers s t)).
Proof.
  split; [|split]; intros x timeout t.
  - apply (CreateAccount_as_quorum_call x timeout s).
  - apply (RegisterPmid_as_quorum_call x timeout s).
  - apply (GetPmidHealth_as_quorum_call x timeout s).
Qed.

(** X7.  A quorum-correlated method disturbs no other pending entry: apart
    from the entry it registers (its own identifier, in the timer it
    registers with), every entry of every timer reads after the call as it
    did before. *)
Theorem quorum_methods_leave_other_entries
    (s : facade_state) (t : MaidNodeNfs.timer) (task_id : TaskId) :
  (∀ account_creation timeout,
     t ≠ create_account_timer_
     ∨ task_id ≠ new_task_id_ (timers s create_account_timer_) →
     tasks_
       (timers (MaidNodeNfs.CreateAccount group_size account_creation timeout s).2 t)
       !! task_id
     = tasks_ (timers s t) !! task_id)
  ∧ (∀ pmid_registration timeout,
       t ≠ register_pmid_timer_
       ∨ task_id ≠ new_task_id_ (timers s create_account_timer_) →
       tasks_
         (timers (MaidNodeNfs.RegisterPmid group_size pmid_registration timeout s).2 t)
         !! task_id
       = tasks_ (timers s t) !! task_id)
  ∧ (∀ pmid_name timeout,
       t ≠ pmid_health_timer_
       ∨ task_id ≠ new_task_id_ (timers s pmid_health_timer_) →
       tasks_
         (timers (MaidNodeNfs.GetPmidHealth group_size pmid_name timeout s).2 t)
         !! task_id
       = tasks_ (timers s t) !! task_id).
Proof.
  split; [|split]; intros x timeout Hother.
  - by apply (CreateAccount_as_quorum_call x timeout s).
  - by apply (RegisterPmid_as_quorum_call x timeout s).
  - by apply (GetPmidHealth_as_quorum_call x timeout s).
Qed.

(** X8.  Every call of a quorum-correlated method makes one new promise:
    the store of promise states grows by one unresolved cell at its end and
    the cells that were there keep their states. *)
Theorem quorum_methods_add_one_unresolved_promise (s : facade_state) :
  (∀ account_creation timeout,
     promises (MaidNodeNfs.CreateAccount group_size account_creation timeout s).2
     = promises s ++ [unresolved])
  ∧ (∀ pmid_registration timeout,
       promises (MaidNodeNfs.RegisterPmid group_size pmid_registration timeout s).2
       = promises s ++ [unresolved])
  ∧ (∀ pmid_name timeout,
       promises (MaidNodeNfs.GetPmidHealth group_size pmid_name timeout s).2
       = promises s ++ [unresolved]).
Proof.
  split; [|split]; intros x timeout.
  - apply (CreateAccount_as_quorum_call x timeout s).
  - apply (RegisterPmid_as_quorum_call x timeout s).
  - apply (GetPmidHealth_as_quorum_call x timeout s).
Qed.

(** X9.  [CreateAccount] and [RegisterPmid] draw their identifiers from one
    sequence, that of [create_account_timer_]: whichever of the two is
    called second takes the identifier after the one the first took.
    [GetPmidHealth] has a sequence of its own: called after either of
    them it takes the identifier it would have taken before. *)
Theorem CreateAccount_RegisterPmid_share_identifier_sequence
    (s : facade_state) (account_creation : AccountCreation)
    (pmid_registration : PmidRegistration) (pmid_name : Name)
    (timeout timeout' : duration) :
  let id := new_task_id_ (timers s create_account_timer_) in
  let registered :=
    (MaidNodeNfs.RegisterPmid group_size pmid_registration timeout s).2 in
  let created :=
    (MaidNodeNfs.CreateAccount group_size account_creation timeout s).2 in
  calls_since s registered !! 0%nat
    = Some (call_NewTaskId create_account_timer_ id)
  ∧ calls_since registered
      (MaidNodeNfs.CreateAccount group_size account_creation timeout' registered).2
      !! 0%nat
    = Some (call_NewTaskId create_account_timer_ (id + 1))
  ∧ calls_since created
      (MaidNodeNfs.RegisterPmid group_size pmid_registration timeout' created).2
      !! 0%nat
    = Some (call_NewTaskId create_account_timer_ (id + 1))
  ∧ calls_since registered
      (MaidNodeNfs.GetPmidHealth group_size pmid_name timeout' registered).2
      !! 0%nat
    = Some (call_NewTaskId pmid_health_timer_
              (new_task_id_ (timers s pmid_health_timer_))).
Proof.
  intros id registered created.
  assert (∀ t, new_task_id_ (timers registered t) =
               if decide (t = create_account_timer_) then id + 1
               else new_task_id_ (timers s t)) as Hreg
    by exact (proj1 (RegisterPmid_as_quorum_call pmid_registration timeout s)).
  assert (∀ t, new_task_id_ (timers created t) =
               if decide (t = create_account_timer_) then id + 1
               else new_task_id_ (timers s t)) as Hcre
    by exact (proj1 (CreateAccount_as_quorum_call account_creation timeout s)).
  split; [|split; [|split]].
  - apply (quorum_call_first_calls create_account_timer_ register_pmid_timer_
             timeout (λ p, op_data (HandleRegisterPmidResult p)) (group_size - 1)
             (λ id, SendRegisterPmidRequest id pmid_registration) s).
  - etrans;
      [exact (proj1 (quorum_call_first_calls
                create_account_timer_ create_account_timer_ timeout'
                (λ p, op_data (HandleCreateAccountResult p)) (group_size * 2)
                (λ id, SendCreateAccountRequest id account_creation) registered))|].
    by rewrite (Hreg create_account_timer_).
  - etrans;
      [exact (proj1 (quorum_call_first_calls
                create_account_timer_ register_pmid_timer_ timeout'
                (λ p, op_data (HandleRegisterPmidResult p)) (group_size - 1)
                (λ id, SendRegisterPmidRequest id pmid_registration) created))|].
    by rewrite (Hcre create_account_timer_).
  - etrans;
      [exact (proj1 (quorum_call_first_calls
                pmid_health_timer_ pmid_health_timer_ timeout'
                (λ p, op_data (HandlePmidHealthResult p)) (group_size - 1)
                (λ id, SendPmidHealthRequest id pmid_name) registered))|].
    by rewrite (Hreg pmid_health_timer_).
Qed.

End facade_frame.

(** ** The facade: registrations in reachable states *)

Section quorum_call_size.

Context {timer : Type} `{EqDecision timer}.

Lemma quorum_call_registers_new_entry (alloc reg : timer) (timeout : duration)
    (mk_op_data : promise → OpData) (expected : Z)
    (mk_request : TaskId → request) (s : state timer) :
  let id := new_task_id_ (timers s alloc) in
  let r := (promise ← make_shared_promise;
            task_id ← NewTaskId alloc;
            AddTask reg timeout (mk_op_data promise) expected task_id ;;
            dispatcher_send (mk_request task_id) ;;
            get_future promise) s in
  tasks_ (timers s reg) !! id = None →
  size (tasks_ (timers r.2 reg)) = S (size (tasks_ (timers s reg))).
Proof.
  intros id r Hfresh.
  destruct (quorum_call_spec alloc reg timeout mk_op_data expected mk_request s)
    as (_ & _ & Hcase).
  fold id r in Hcase. rewrite Hfresh in Hcase. destruct Hcase as (_ & _ & Ht).
  assert (tasks_ ((<[alloc := {| new_task_id_ := id + 1;
                                 tasks_ := tasks_ (timers s alloc) |}]>
                     (timers s)) reg) = tasks_ (timers s reg)) as Hat.
  { unfold insert, fn_insert. case_decide; simpl; congruence. }
  rewrite Ht, fn_lookup_insert. simpl. rewrite Hat.
  by apply map_size_insert_None.
Qed.

End quorum_call_size.

Section facade_reachable.

Variable group_size : Z.

Local Abbreviation facade_state := (state MaidNodeNfs.timer).
Local Abbreviation create_account_timer_ := MaidNodeNfs.create_account_timer_.
Local Abbreviation register_pmid_timer_ := MaidNodeNfs.register_pmid_timer_.
Local Abbreviation pmid_health_timer_ := MaidNodeNfs.pmid_health_timer_.
Local Abbreviation op_data f :=
  {| successes_required := group_size - 1; op_response_functor := f |}.

(** X10.  In every state a facade can reach from its construction (by its
    methods, with tasks leaving the timers and promises being set in
    between) each quorum-correlated method returns a future: the
    registration is never refused as a duplicate. *)
Theorem reachable_quorum_methods_return_future (s : facade_state) :
  MaidNodeNfs.reachable group_size s →
  (∀ account_creation timeout,
     (MaidNodeNfs.CreateAccount group_size account_creation timeout s).1
     = Normal (length (promises s)))
  ∧ (∀ pmid_registration timeout,
       (MaidNodeNfs.RegisterPmid group_size pmid_registration timeout s).1
       = Normal (length (promises s)))
  ∧ (∀ pmid_name timeout,
       (MaidNodeNfs.GetPmidHealth group_size pmid_name timeout s).1
       = Normal (length (promises s))).
Proof.
  intros Hreach.
  pose proof (reachable_pending_ids_allocated group_size s Hreach) as Hinv.
  split; [|split]; intros x timeout.
  - apply (quorum_call_allocated create_account_timer_ create_account_timer_
             timeout (λ p, op_data (HandleCreateAccountResult p)) (group_size * 2)
             (λ id, SendCreateAccountRequest id x) s eq_refl Hinv).
  - apply (quorum_call_allocated create_account_timer_ register_pmid_timer_
             timeout (λ p, op_data (HandleRegisterPmidResult p)) (group_size - 1)
             (λ id, SendRegisterPmidRequest id x) s eq_refl Hinv).
  - apply (quorum_call_allocated pmid_health_timer_ pmid_health_timer_
             timeout (λ p, op_data (HandlePmidHealthResult p)) (group_size - 1)
             (λ id, SendPmidHealthRequest id x) s eq_refl Hinv).
Qed.

(** X11.  In a reachable state a registration never replaces a pending
    entry: after each quorum-correlated method the timer it registers with
    holds exactly one entry more than before. *)
Theorem reachable_registration_adds_an_entry (s : facade_state) :
  MaidNodeNfs.reachable group_size s →
  (∀ account_creation timeout,
     size (tasks_ (timers
       (MaidNodeNfs.CreateAccount group_size account_creation timeout s).2
       create_account_timer_))
     = S (size (tasks_ (timers s create_account_timer_))))
  ∧ (∀ pmid_registration timeout,
       size (tasks_ (timers
         (MaidNodeNfs.RegisterPmid group_size pmid_registration timeout s).2
         register_pmid_timer_))
       = S (size (tasks_ (timers s register_pmid_timer_))))
  ∧ (∀ pmid_name timeout,
       size (tasks_ (timers
         (MaidNodeNfs.GetPmidHealth group_size pmid_name timeout s).2
         pmid_health_timer_))
       = S (size (tasks_ (timers s pmid_health_timer_)))).
Proof.
  intros Hreach.
  pose proof (reachable_pending_ids_allocated group_size s Hreach) as Hinv.
  split; [|split]; intros x timeout.
  - apply (quorum_call_registers_new_entry
             create_account_timer_ create_account_timer_
             timeout (λ p, op_data (HandleCreateAccountResult p)) (group_size * 2)
             (λ id, SendCreateAccountRequest id x) s).
    apply (allocated_id_not_pending s create_account_timer_ Hinv).
  - apply (quorum_call_registers_new_entry
             create_account_timer_ register_pmid_timer_
             timeout (λ p, op_data (HandleRegisterPmidResult p)) (group_size - 1)
             (λ id, SendRegisterPmidRequest id x) s).
    apply (allocated_id_not_pending s register_pmid_timer_ Hinv).
  - apply (quorum_call_registers_new_entry
             pmid_health_timer_ pmid_health_timer_
             timeout (λ p, op_data (HandlePmidHealthResult p)) (group_size - 1)
             (λ id, SendPmidHealthRequest id x) s).
    apply (allocated_id_not_pending s pmid_health_timer_ Hinv).
Qed.

End facade_reachable.

(** ** The free function [CreateAccount]: the three ways out *)

Section CreateAccount_ways_out.

Variable group_size : Z.
Variable default_timeout : duration.
Variable HexSubstr : string → string.

Local Abbreviation facade_state := (state MaidNodeNfs.timer).
Local Abbreviation create_account_timer_ := MaidNodeNfs.create_account_timer_.
Local Abbreviation account_creation_of maid anmaid :=
  {| creation_public_maid := {| public_maid_name := maid_name maid |};
     creation_public_anmaid := {| public_anmaid_name := anmaid_name anmaid |} |}.
Local Abbreviation registered_task fut :=
  {| task_timeout := default_timeout;
     task_op_data :=
       {| successes_required := group_size - 1;
          op_response_functor := HandleCreateAccountResult fut |};
     expected_response_count := group_size * 2 |}.
Local Abbreviation facade_calls s maid anmaid fut :=
  [call_NewTaskId create_account_timer_
     (new_task_id_ (timers s create_account_timer_));
   call_AddTask create_account_timer_ default_timeout
     {| successes_required := group_size - 1;
        op_response_functor := HandleCreateAccountResult fut |}
     (group_size * 2) (new_task_id_ (timers s create_account_timer_));
   call_dispatcher
     (SendCreateAccountRequest (new_task_id_ (timers s create_account_timer_))
        (account_creation_of maid anmaid))].

(** The state the facade's [CreateAccount] leaves when it returns a
    future. *)
Lemma CreateAccount_returned_future_state
    (s s1 : facade_state) (account_creation : AccountCreation)
    (timeout : duration) (fut : future) :
  MaidNodeNfs.CreateAccount group_size account_creation timeout s
  = (Normal fut, s1) →
  fut = length (promises s)
  ∧ promises s1 !! fut = Some unresolved
  ∧ calls s1 =
      calls s ++
      [call_NewTaskId create_account_timer_
         (new_task_id_ (timers s create_account_timer_));
       call_AddTask create_account_timer_ timeout
         {| successes_required := group_size - 1;
            op_response_functor := HandleCreateAccountResult fut |}
         (group_size * 2) (new_task_id_ (timers s create_account_timer_));
       call_dispatcher
         (SendCreateAccountRequest
            (new_task_id_ (timers s create_account_timer_)) account_creation)]
  ∧ tasks_ (timers s1 create_account_timer_)
      !! new_task_id_ (timers s create_account_timer_)
    = Some {| task_timeout := timeout;
              task_op_data :=
                {| successes_required := group_size - 1;
                   op_response_functor := HandleCreateAccountResult fut |};
              expected_response_count := group_size * 2 |}.
Proof.
  intros E1.
  pose proof (quorum_call_spec
                create_account_timer_ create_account_timer_ timeout
                (λ p, {| successes_required := group_size - 1;
                         op_response_functor := HandleCreateAccountResult p |})
                (group_size * 2)
                (λ id, SendCreateAccountRequest id account_creation) s)
    as Hspec.
  unfold MaidNodeNfs.CreateAccount in E1. cbv zeta beta in Hspec.
  rewrite E1 in Hspec. simpl in Hspec.
  destruct Hspec as (_ & Hp & Hcase).
  destruct (tasks_ _ !! _); destruct Hcase as (Hc & Hcalls & Ht);
    [discriminate|].
  injection Hc as ->.
  split; [reflexivity|]. split; [|split; [exact Hcalls|]].
  - rewrite Hp. by rewrite list_lookup_middle.
  - rewrite Ht, fn_lookup_insert. simpl. apply lookup_insert_eq.
Qed.

(** X12.  When nothing reaches the future within the ten seconds, the free
    function prints "can't create account" and throws
    [failed_to_handle_request].  It has made the facade call before, and
    it withdraws nothing: the task stays registered with
    [create_account_timer_] and the promise stays unresolved. *)
Theorem CreateAccount_timeout_throws_and_leaves_task_pending
    (s : facade_state) (maid : Maid) (anmaid : Anmaid) (fut : future) :
  (MaidNodeNfs.CreateAccount group_size (account_creation_of maid anmaid)
     default_timeout s).1 = Normal fut →
  let r := CreateAccount group_size default_timeout HexSubstr maid anmaid
             unresolved s in
  r.1 = Thrown (maidsafe_error (make_error_code failed_to_handle_request))
  ∧ calls_since s r.2 =
      facade_calls s maid anmaid fut
      ++ [call_wait_for fut 10; std_cout "can't create account"]
  ∧ tasks_ (timers r.2 create_account_timer_)
      !! new_task_id_ (timers s create_account_timer_)
    = Some (registered_task fut)
  ∧ promises r.2 !! fut = Some unresolved.
Proof.
  intros Hfut r. subst r. unfold CreateAccount.
  destruct (MaidNodeNfs.CreateAccount group_size (account_creation_of maid anmaid)
              default_timeout s) as [c1 s1] eqn:E1.
  simpl in Hfut. subst c1.
  destruct (CreateAccount_returned_future_state _ _ _ _ _ E1)
    as (Hlen & Hun & Hcalls & Htask).
  assert (fut < length (promises s1))%nat as Hlt
    by (by apply lookup_lt_Some in Hun).
  rewrite (bind_Normal _ _ _ _ _ E1).
  unfold wait_for, fulfil, stored_exception, cout, try_catch.
  unfold mbind, M_bind, mret, M_ret, gets, modify, throw. cbn.
  repeat (rewrite ?Hun, ?list_lookup_insert_eq by assumption; cbn).
  split; [reflexivity|]. split; [|split; [exact Htask|reflexivity]].
  unfold calls_since. simpl. rewrite Hcalls, <- !app_assoc. apply drop_app_length.
Qed.

(** X13.  Whatever exception the future holds, the free function returns
    normally and reports no created account: for the two "already exists"
    codes it prints "account already existed", for any other
    [maidsafe_error] it prints nothing, for any other exception it prints
    "caught an unknown exception"; it never sleeps and never prints the
    "Account created" line. *)
Theorem CreateAccount_swallows_every_future_exception
    (s : facade_state) (maid : Maid) (anmaid : Anmaid) (fut : future)
    (e : exception) :
  (MaidNodeNfs.CreateAccount group_size (account_creation_of maid anmaid)
     default_timeout s).1 = Normal fut →
  e ≠ aborted →
  let r := CreateAccount group_size default_timeout HexSubstr maid anmaid
             (has_exception e) s in
  r.1 = Normal ()
  ∧ calls_since s r.2 =
      facade_calls s maid anmaid fut
      ++ [call_wait_for fut 10]
      ++ match e with
         | maidsafe_error code =>
             if bool_decide (code = make_error_code account_already_exists)
                || bool_decide (code = make_error_code unique_data_clash)
             then [std_cout "account already existed"]
             else []
         | _ => [std_cout "caught an unknown exception"]
         end.
Proof.
  intros Hfut Hne r. subst r. unfold CreateAccount.
  destruct (MaidNodeNfs.CreateAccount group_size (account_creation_of maid anmaid)
              default_timeout s) as [c1 s1] eqn:E1.
  simpl in Hfut. subst c1.
  destruct (CreateAccount_returned_future_state _ _ _ _ _ E1)
    as (Hlen & Hun & Hcalls & Htask).
  assert (fut < length (promises s1))%nat as Hlt
    by (by apply lookup_lt_Some in Hun).
  rewrite (bind_Normal _ _ _ _ _ E1).
  unfold wait_for, fulfil, stored_exception, cout, try_catch.
  unfold mbind, M_bind, mret, M_ret, gets, modify, throw. cbn.
  repeat (rewrite ?Hun, ?list_lookup_insert_eq by assumption; cbn).
  unfold calls_since.
  destruct e as [code| | |]; [|cbn..|contradiction].
  - destruct (bool_decide (code = make_error_code account_already_exists)
              || bool_decide (code = make_error_code unique_data_clash));
      cbn; (split; [reflexivity|]);
      rewrite Hcalls, <- !app_assoc; simpl; rewrite ?app_nil_r;
      apply drop_app_length.
  - split; [reflexivity|].
    rewrite Hcalls, <- !app_assoc. apply drop_app_length.
  - split; [reflexivity|].
    rewrite Hcalls, <- !app_assoc. apply drop_app_length.
Qed.

(** X14.  When a value reaches the future within the wait, the free
    function makes, in this order, the three calls of the facade method
    (with the default timeout and the account built from the two keys),
    the wait of ten seconds, a sleep of five seconds and the "Account
    created for maid" line with the hex of the maid's name; it returns
    normally. *)
Theorem CreateAccount_value_reports_created
    (s : facade_state) (maid : Maid) (anmaid : Anmaid) (fut : future)
    (v : promise_value) :
  (MaidNodeNfs.CreateAccount group_size (account_creation_of maid anmaid)
     default_timeout s).1 = Normal fut →
  let r := CreateAccount group_size default_timeout HexSubstr maid anmaid
             (has_value v) s in
  r.1 = Normal ()
  ∧ calls_since s r.2 =
      facade_calls s maid anmaid fut
      ++ [call_wait_for fut 10; call_sleep_for 5;
          std_cout ("Account created for maid " +:+ HexSubstr (maid_name maid))]
  ∧ promises r.2 !! fut = Some (has_value v).
Proof.
  intros Hfut r. subst r. unfold CreateAccount.
  destruct (MaidNodeNfs.CreateAccount group_size (account_creation_of maid anmaid)
              default_timeout s) as [c1 s1] eqn:E1.
  simpl in Hfut. subst c1.
  destruct (CreateAccount_returned_future_state _ _ _ _ _ E1)
    as (Hlen & Hun & Hcalls & Htask).
  assert (fut < length (promises s1))%nat as Hlt
    by (by apply lookup_lt_Some in Hun).
  rewrite (bind_Normal _ _ _ _ _ E1).
  unfold wait_for, fulfil, stored_exception, cout, sleep_for, try_catch.
  unfold mbind, M_bind, mret, M_ret, gets, modify, throw. cbn.
  repeat (rewrite ?Hun, ?list_lookup_insert_eq by assumption; cbn).
  split; [reflexivity|]. split; [|reflexivity].
  unfold calls_since. simpl. rewrite Hcalls, <- !app_assoc. apply drop_app_length.
Qed.

End CreateAccount_ways_out.

(** ** The first revision of [CreateAccount] *)

Section first_revision_CreateAccount.

Variable node_group_size : Z.

(** X15.  The first revision of [MaidNodeNfs::CreateAccount] takes its
    identifier from [get_timer_] and registers the task under it with
    [create_account_timer_], with threshold [node_group_size - 1] and
    expected count [node_group_size * 2]: the counter of [get_timer_]
    advances by one, that of [create_account_timer_] does not move, and
    one unresolved promise is added. *)
Theorem first_revision_CreateAccount_allocates_from_get_timer
    (s : state first_revision.timer) (account_creation : AccountCreation)
    (timeout : duration) :
  let r := first_revision.MaidNodeNfs.CreateAccount node_group_size
             account_creation timeout s in
  let id := new_task_id_ (timers s first_revision.get_timer_) in
  calls_since s r.2 !! 0%nat
  = Some (call_NewTaskId first_revision.get_timer_ id)
  ∧ calls_since s r.2 !! 1%nat
    = Some (call_AddTask first_revision.create_account_timer_ timeout
              {| successes_required := node_group_size - 1;
                 op_response_functor :=
                   HandleCreateAccountResult (length (promises s)) |}
              (node_group_size * 2) id)
  ∧ new_task_id_ (timers r.2 first_revision.get_timer_) = id + 1
  ∧ new_task_id_ (timers r.2 first_revision.create_account_timer_)
    = new_task_id_ (timers s first_revision.create_account_timer_)
  ∧ promises r.2 = promises s ++ [unresolved].
Proof.
  intros r id.
  destruct (quorum_call_first_calls
              first_revision.get_timer_ first_revision.create_account_timer_
              timeout
              (λ p, {| successes_required := node_group_size - 1;
                       op_response_functor := HandleCreateAccountResult p |})
              (node_group_size * 2)
              (λ id, SendCreateAccountRequest id account_creation) s)
    as (H0 & H1 & Hget & Hcreate).
  destruct (quorum_call_untouched
              first_revision.get_timer_ first_revision.create_account_timer_
              timeout
              (λ p, {| successes_required := node_group_size - 1;
                       op_response_functor := HandleCreateAccountResult p |})
              (node_group_size * 2)
              (λ id, SendCreateAccountRequest id account_creation) s)
    as (_ & _ & Hp).
  repeat split; [exact H0|exact H1|exact Hget| |exact Hp].
  apply Hcreate. discriminate.
Qed.

End first_revision_CreateAccount.

(** ** Further runs on a freshly constructed facade *)

Lemma quorum_methods_leave_other_entries_witness :
  (MaidNodeNfs.register_pmid_timer_ ≠ MaidNodeNfs.create_account_timer_
   ∨ 5 ≠ new_task_id_
            (timers (MaidNodeNfs.MaidNodeNfs "hint")
               MaidNodeNfs.create_account_timer_))
  ∧ tasks_
      (timers
         (MaidNodeNfs.CreateAccount 4
            {| creation_public_maid := {| public_maid_name := "maid" |};
               creation_public_anmaid := {| public_anmaid_name := "anmaid" |} |}
            30 (MaidNodeNfs.MaidNodeNfs "hint")).2
         MaidNodeNfs.register_pmid_timer_) !! 5
    = tasks_
        (timers (MaidNodeNfs.MaidNodeNfs "hint")
           MaidNodeNfs.register_pmid_timer_) !! 5.
Proof.
  assert (MaidNodeNfs.register_pmid_timer_ ≠ MaidNodeNfs.create_account_timer_
          ∨ 5 ≠ new_task_id_
                   (timers (MaidNodeNfs.MaidNodeNfs "hint")
                      MaidNodeNfs.create_account_timer_)) as Hother
    by (left; discriminate).
  split; [exact Hother|].
  exact (proj1
    (quorum_methods_leave_other_entries 4 (MaidNodeNfs.MaidNodeNfs "hint")
       MaidNodeNfs.register_pmid_timer_ 5) _ 30 Hother).
Defined.

Lemma reachable_quorum_methods_return_future_witness :
  MaidNodeNfs.reachable 4
    (MaidNodeNfs.RegisterPmid 4 {| registration_serialised := "pmid" |} 30
       (MaidNodeNfs.MaidNodeNfs "hint")).2
  ∧ (MaidNodeNfs.GetPmidHealth 4 "pmid name" 30
       (MaidNodeNfs.RegisterPmid 4 {| registration_serialised := "pmid" |} 30
          (MaidNodeNfs.MaidNodeNfs "hint")).2).1 = Normal 1%nat.
Proof.
  assert (MaidNodeNfs.reachable 4
            (MaidNodeNfs.RegisterPmid 4 {| registration_serialised := "pmid" |} 30
               (MaidNodeNfs.MaidNodeNfs "hint")).2) as Hreach
    by apply MaidNodeNfs.reachable_RegisterPmid,
             MaidNodeNfs.reachable_constructed.
  split; [exact Hreach|].
  exact (proj2 (proj2
    (reachable_quorum_methods_return_future 4 _ Hreach)) "pmid name" 30).
Defined.

Lemma reachable_registration_adds_an_entry_witness :
  MaidNodeNfs.reachable 4 (MaidNodeNfs.MaidNodeNfs "hint")
  ∧ size (tasks_ (timers
      (MaidNodeNfs.RegisterPmid 4 {| registration_serialised := "pmid" |} 30
         (MaidNodeNfs.MaidNodeNfs "hint")).2
      MaidNodeNfs.register_pmid_timer_)) = 1%nat.
Proof.
  assert (MaidNodeNfs.reachable 4 (MaidNodeNfs.MaidNodeNfs "hint")) as Hreach
    by apply MaidNodeNfs.reachable_constructed.
  split; [exact Hreach|].
  exact (proj1 (proj2
    (reachable_registration_adds_an_entry 4 _ Hreach))
    {| registration_serialised := "pmid" |} 30).
Defined.

Lemma CreateAccount_timeout_throws_and_leaves_task_pending_witness :
  (CreateAccount 4 30 (λ x, x) {| maid_name := "maid" |}
     {| anmaid_name := "anmaid" |} unresolved
     (MaidNodeNfs.MaidNodeNfs "hint")).1
  = Thrown (maidsafe_error (make_error_code failed_to_handle_request)).
Proof.
  exact (proj1
    (CreateAccount_timeout_throws_and_leaves_task_pending 4 30 (λ x, x)
       (MaidNodeNfs.MaidNodeNfs "hint") {| maid_name := "maid" |}
       {| anmaid_name := "anmaid" |} 0%nat eq_refl)).
Defined.

Lemma CreateAccount_swallows_every_future_exception_witness :
  unknown_exception ≠ aborted
  ∧ (CreateAccount 4 30 (λ x, x) {| maid_name := "maid" |}
       {| anmaid_name := "anmaid" |} (has_exception unknown_exception)
       (MaidNodeNfs.MaidNodeNfs "hint")).1 = Normal ().
Proof.
  assert (unknown_exception ≠ aborted) as Hne by discriminate.
  split; [exact Hne|].
  exact (proj1
    (CreateAccount_swallows_every_future_exception 4 30 (λ x, x)
       (MaidNodeNfs.MaidNodeNfs "hint") {| maid_name := "maid" |}
       {| anmaid_name := "anmaid" |} 0%nat unknown_exception eq_refl Hne)).
Defined.

Lemma CreateAccount_value_reports_created_witness :
  (CreateAccount 4 30 (λ x, x) {| maid_name := "maid" |}
     {| anmaid_name := "anmaid" |} (has_value void_value)
     (MaidNodeNfs.MaidNodeNfs "hint")).1 = Normal ().
Proof.
  exact (proj1
    (CreateAccount_value_reports_created 4 30 (λ x, x)
       (MaidNodeNfs.MaidNodeNfs "hint") {| maid_name := "maid" |}
       {| anmaid_name := "anmaid" |} 0%nat void_value eq_refl)).
Defined.
